(** * Webhook ingestion pipeline of the Messenger client (messenger.go)

    A shallow embedding of [Handle], [verifyHandler], [checkIntegrity],
    [dispatch] and [classify], together with the parts of the Go standard
    library they call (strings, fmt, crypto/sha1, crypto/hmac, net/http,
    encoding/json), and the properties of the pipeline proved on it.

    Go strings are byte sequences: they are [string]s here (one [ascii] per
    byte); a [[]byte] is a [list byte]. An [int64] is a [Z]. *)

From Stdlib Require Import ZArith Lia List Bool.
From Stdlib.Strings Require Import Ascii String Byte.
From stdpp Require Import base decidable option list strings gmap.

Import ListNotations.
Local Open Scope string_scope.
Local Open Scope list_scope.
Local Open Scope Z_scope.

(** ** Strings and bytes *)

Module GoString.

(** [[]byte(s)] and [string(b)]. *)
Definition bytes_of_string (s : string) : list byte := list_byte_of_string s.
Definition string_of_bytes (b : list byte) : string := string_of_list_byte b.

Definition is_upper (c : ascii) : bool :=
  (65 <=? Z.of_N (N_of_ascii c)) && (Z.of_N (N_of_ascii c) <=? 90).

Definition lower_ascii (c : ascii) : ascii :=
  if is_upper c then ascii_of_N (N_of_ascii c + 32) else c.

(** [strings.ToLower] on the ASCII letters. On bytes outside ASCII Go maps
    whole runes; the only runes whose lower case is an ASCII letter are
    U+212A (to k) and U+0130 (to i), so a comparison of the result with
    [sha1] or with a string of hexadecimal digits is the same here. *)
Fixpoint ToLower (s : string) : string :=
  match s with
  | EmptyString => EmptyString
  | String c s' => String (lower_ascii c) (ToLower s')
  end.

(** [strings.Index(s, "=")] as the pieces before and after the first [=]. *)
Fixpoint cut_eq (s : string) : option (string * string) :=
  match s with
  | EmptyString => None
  | String c s' =>
      if Ascii.eqb c "="%char then Some (EmptyString, s')
      else match cut_eq s' with
           | Some (a, b) => Some (String c a, b)
           | None => None
           end
  end.

(** [strings.SplitN(s, "=", 2)]: one piece, or two when [s] has a [=]; the
    result is the first piece and, if there is one, the second. *)
Definition SplitN_eq_2 (s : string) : string * option string :=
  match cut_eq s with
  | Some (a, b) => (a, Some b)
  | None => (s, None)
  end.

(** [strings.Join(l, sep)]. *)
Fixpoint Join (l : list string) (sep : string) : string :=
  match l with
  | [] => EmptyString
  | [x] => x
  | x :: l' => (x ++ sep ++ Join l' sep)%string
  end.

Fixpoint has_eq (s : string) : bool :=
  match s with
  | EmptyString => false
  | String c s' => Ascii.eqb c "="%char || has_eq s'
  end.

Definition hex_digit (n : Z) : ascii :=
  if n <? 10 then ascii_of_N (Z.to_N (48 + n)) else ascii_of_N (Z.to_N (87 + n)).

(** [fmt.Sprintf("%x", b)] for a byte slice: two lower-case digits a byte. *)
Fixpoint hex (b : list byte) : string :=
  match b with
  | [] => EmptyString
  | x :: b' =>
      let n := Z.of_N (Byte.to_N x) in
      String (hex_digit (Z.shiftr n 4)) (String (hex_digit (Z.land n 15)) (hex b'))
  end.

End GoString.

(** ** crypto/sha1 and crypto/hmac *)

Module Crypto.

Definition byte_of_Z (z : Z) : byte :=
  match Byte.of_N (Z.to_N (Z.land z 255)) with
  | Some b => b
  | None => x00
  end.

Definition Z_of_byte (b : byte) : Z := Z.of_N (Byte.to_N b).

(** 32-bit words with wrap-around. *)
Definition w32 (x : Z) : Z := Z.land x 4294967295.
Definition add32 (x y : Z) : Z := w32 (x + y).
Definition rotl (n x : Z) : Z := w32 (Z.lor (Z.shiftl x n) (Z.shiftr x (32 - n))).
Definition not32 (x : Z) : Z := Z.lxor x 4294967295.

(** big-endian encodings *)
Definition be32 (x : Z) : list Z :=
  [Z.land (Z.shiftr x 24) 255; Z.land (Z.shiftr x 16) 255;
   Z.land (Z.shiftr x 8) 255; Z.land x 255].

Definition be64 (x : Z) : list Z := be32 (Z.shiftr x 32) ++ be32 (w32 x).

(** The message followed by 0x80, zeros up to 56 modulo 64, and the length
    in bits on 64 bits. *)
Definition pad (msg : list Z) : list Z :=
  let len := Z.of_nat (length msg) in
  msg ++ [128] ++ repeat 0 (Z.to_nat ((55 - len) mod 64)) ++ be64 (Z.land (8 * len) 18446744073709551615).

Fixpoint words (fuel : nat) (b : list Z) : list Z :=
  match fuel, b with
  | S fuel', b0 :: b1 :: b2 :: b3 :: rest =>
      Z.lor (Z.shiftl b0 24) (Z.lor (Z.shiftl b1 16) (Z.lor (Z.shiftl b2 8) b3))
      :: words fuel' rest
  | _, _ => []
  end.

Fixpoint schedule (n : nat) (w : list Z) : list Z :=
  match n with
  | O => w
  | S n' =>
      let t := length w in
      let x := Z.lxor (nth (t - 3) w 0)
                 (Z.lxor (nth (t - 8) w 0) (Z.lxor (nth (t - 14) w 0) (nth (t - 16) w 0))) in
      schedule n' (w ++ [rotl 1 x])
  end.

Record digest := Digest { h0 : Z; h1 : Z; h2 : Z; h3 : Z; h4 : Z }.

Definition init : digest :=
  Digest 1732584193 4023233417 2562383102 271733878 3285377520.

Definition round (t : nat) (st : digest) (wt : Z) : digest :=
  let '(Digest a b c d e) := st in
  let '(f, k) :=
    if (t <? 20)%nat then (Z.lor (Z.land b c) (Z.land (not32 b) d), 1518500249)
    else if (t <? 40)%nat then (Z.lxor b (Z.lxor c d), 1859775393)
    else if (t <? 60)%nat then
      (Z.lor (Z.lor (Z.land b c) (Z.land b d)) (Z.land c d), 2400959708)
    else (Z.lxor b (Z.lxor c d), 3395469782) in
  let tmp := add32 (add32 (add32 (add32 (rotl 5 a) f) e) k) wt in
  Digest tmp a (rotl 30 b) c d.

Fixpoint rounds (t : nat) (st : digest) (w : list Z) : digest :=
  match w with
  | [] => st
  | wt :: w' => rounds (S t) (round t st wt) w'
  end.

Definition block (st : digest) (w16 : list Z) : digest :=
  let '(Digest a b c d e) := rounds 0 st (schedule 64 w16) in
  Digest (add32 (h0 st) a) (add32 (h1 st) b) (add32 (h2 st) c)
         (add32 (h3 st) d) (add32 (h4 st) e).

Fixpoint blocks (fuel : nat) (st : digest) (w : list Z) : digest :=
  match fuel, w with
  | S fuel', _ :: _ => blocks fuel' (block st (firstn 16 w)) (skipn 16 w)
  | _, _ => st
  end.

(** [sha1.Sum]: the 20 bytes of the digest. *)
Definition sha1 (msg : list byte) : list byte :=
  let p := pad (map Z_of_byte msg) in
  let w := words (length p) p in
  let '(Digest a b c d e) := blocks (length w) init w in
  map byte_of_Z (be32 a ++ be32 b ++ be32 c ++ be32 d ++ be32 e).

Definition xor_pad (c : Z) (key : list byte) : list byte :=
  map (fun k => byte_of_Z (Z.lxor (Z_of_byte k) c)) key.

(** [hmac.New(sha1.New, key)], [Write(msg)], [Sum(nil)]: a key longer than
    the block size is hashed, then the key is filled with zeros up to 64
    bytes. *)
Definition hmac_sha1 (key msg : list byte) : list byte :=
  let k := if (64 <? length key)%nat then sha1 key else key in
  let k := k ++ repeat x00 (64 - length k) in
  sha1 (xor_pad 92 k ++ sha1 (xor_pad 54 k ++ msg)).

End Crypto.

Import GoString.

(** ** Data model (receiving.go, actions.go, response.go) *)

(** A JSON document, as [encoding/json] reads it. A number keeps its
    literal: whether it fits the Go type it is stored in is decided when it
    is stored. *)
#[local] Set Warnings "-register-all".
Inductive json : Type :=
| JNull
| JBool (b : bool)
| JNum (lit : string)
| JStr (s : string)
| JArr (elems : list json)
| JObj (members : list (string * json)).

(** [time.Time]: the zero value, or the result of [time.Unix(sec, nsec)]. *)
Inductive Time : Type :=
| ZeroTime
| Unix (sec nsec : Z).

(** [time.Microsecond], a [time.Duration]: its [int64] value is a number of
    nanoseconds. *)
Definition time_Microsecond : Z := 1000.

(** Modelled from the spec: [Sender] and [Recipient], whose declarations
    are not in messenger.go; each holds the identifier [ID], a number in the
    JSON of a request. *)
Record Sender := mkSender { Sender_ID : Z }.
Record Recipient := mkRecipient { Recipient_ID : Z }.

(** Modelled from the spec: the declarations of the payload types are not in
    messenger.go. A payload is the JSON object received for it (its wire
    format is a fixed external schema) and, for the five types [dispatch]
    assigns them to, the fields [Sender], [Recipient] and [Time], which the
    decoder leaves at their zero values. [dispatch] assigns no field of
    [Delivery] and [Read]. *)
Record Message := mkMessage {
  Message_Fields : list (string * json);
  Message_Sender : Sender;
  Message_Recipient : Recipient;
  Message_Time : Time }.

Record Delivery := mkDelivery { Delivery_Fields : list (string * json) }.

Record Read := mkRead { Read_Fields : list (string * json) }.

Record PostBack := mkPostBack {
  PostBack_Fields : list (string * json);
  PostBack_Sender : Sender;
  PostBack_Recipient : Recipient;
  PostBack_Time : Time }.

Record OptIn := mkOptIn {
  OptIn_Fields : list (string * json);
  OptIn_Sender : Sender;
  OptIn_Recipient : Recipient;
  OptIn_Time : Time }.

Record ReferralMessage := mkReferralMessage {
  ReferralMessage_Fields : list (string * json);
  ReferralMessage_Sender : Sender;
  ReferralMessage_Recipient : Recipient;
  ReferralMessage_Time : Time }.

Record AccountLinking := mkAccountLinking {
  AccountLinking_Fields : list (string * json);
  AccountLinking_Sender : Sender;
  AccountLinking_Recipient : Recipient;
  AccountLinking_Time : Time }.

(** Modelled from the spec: [MessageInfo], [Entry] and [Receive] with the
    fields messenger.go reads. A pointer field is an [option]: [None] is
    [nil]. *)
Record MessageInfo := mkMessageInfo {
  Info_Sender : Sender;
  Info_Recipient : Recipient;
  Info_Timestamp : Z;
  Info_Message : option Message;
  Info_Delivery : option Delivery;
  Info_Read : option Read;
  Info_PostBack : option PostBack;
  Info_OptIn : option OptIn;
  Info_ReferralMessage : option ReferralMessage;
  Info_AccountLinking : option AccountLinking }.

Record Entry := mkEntry { Entry_Messaging : list MessageInfo }.

Record Receive := mkReceive { Receive_Object : string; Receive_Entry : list Entry }.

(** Modelled from the spec: the categories of [Action], declared outside
    messenger.go, under the names [classify] returns them by. *)
Inductive Action : Type :=
| UnknownAction
| TextAction
| DeliveryAction
| ReadAction
| PostBackAction
| OptInAction
| ReferralAction
| AccountLinkingAction.

#[global] Instance Action_eq_dec : EqDecision Action.
Proof. solve_decision. Defined.

(** [*http.Client]: [http.DefaultClient] or a client of the caller's. *)
Inductive Client : Type :=
| DefaultClient
| CustomClient (id : nat).

Record Options := mkOptions {
  Options_Verify : bool;
  Options_AppSecret : string;
  Options_VerifyToken : string;
  Options_Token : string;
  Options_Client : option Client }.

Record Messenger := mkMessenger {
  client : Client;
  token : string;
  verify : bool;
  appSecret : string;
  verifyToken : string }.

(** Modelled from the spec: the response handle, with the three fields
    [dispatch] sets. *)
Record Response := mkResponse {
  Response_to : Recipient;
  Response_token : string;
  Response_client : Client }.

(** [context.Context]: the core passes the request's context on and does
    nothing else with it. *)
Definition Context := nat.

(** A registered handler is a Go function value; it is known here by a name,
    and calling it is recorded as an event. *)
Definition Handler := string.

(** Modelled from the spec: the registry [Handlers], declared outside
    messenger.go: the handlers of each category in registration order. *)
Record Registry := mkRegistry {
  messageHandlers : list Handler;
  deliveryHandlers : list Handler;
  readHandlers : list Handler;
  postBackHandlers : list Handler;
  optInHandlers : list Handler;
  referralHandlers : list Handler;
  accountLinkingHandlers : list Handler }.

(** The value a handler receives as its second argument. *)
Inductive Payload : Type :=
| PMessage (v : Message)
| PDelivery (v : Delivery)
| PRead (v : Read)
| PPostBack (v : PostBack)
| POptIn (v : OptIn)
| PReferral (v : ReferralMessage)
| PAccountLinking (v : AccountLinking).

Record Call := mkCall {
  Call_handler : Handler;
  Call_category : Action;
  Call_ctx : Context;
  Call_arg : Payload;
  Call_resp : Response }.

(** What the pipeline does besides answering the request: lines printed on
    the standard output and handler calls, in order. *)
Inductive Event : Type :=
| PrintUnknownAction (info : MessageInfo)
| PrintDecodeError (err : string)
| PrintVerifyError (err : string)
| Invoke (c : Call).

(** ** encoding/json, for the schema of [Receive] *)

Inductive result (A : Type) : Type :=
| Ok (a : A)
| Err (msg : string).
Arguments Ok {A} a.
Arguments Err {A} msg.

Module JSON.

Definition is_ws (c : ascii) : bool :=
  Ascii.eqb c " "%char || Ascii.eqb c "009"%char
  || Ascii.eqb c "010"%char || Ascii.eqb c "013"%char.

Fixpoint skip_ws (s : string) : string :=
  match s with
  | String c s' => if is_ws c then skip_ws s' else s
  | EmptyString => s
  end.

Definition digit_val (c : ascii) : option Z :=
  let n := Z.of_N (N_of_ascii c) in
  if (48 <=? n) && (n <=? 57) then Some (n - 48) else None.

Definition hex_val (c : ascii) : option Z :=
  let n := Z.of_N (N_of_ascii c) in
  if (48 <=? n) && (n <=? 57) then Some (n - 48)
  else if (97 <=? n) && (n <=? 102) then Some (n - 87)
  else if (65 <=? n) && (n <=? 70) then Some (n - 55)
  else None.

Fixpoint take_digits (s : string) : string * string :=
  match s with
  | String c s' =>
      match digit_val c with
      | Some _ => let '(d, rest) := take_digits s' in (String c d, rest)
      | None => (EmptyString, s)
      end
  | EmptyString => (EmptyString, s)
  end.

(** The integer part of a number: [0], or digits that start with 1-9. *)
Definition take_int (s : string) : option (string * string) :=
  match take_digits s with
  | (EmptyString, _) => None
  | (String "0" EmptyString, rest) => Some ("0", rest)
  | (String "0" _, _) => None
  | (d, rest) => Some (d, rest)
  end.

Definition take_frac (s : string) : option (string * string) :=
  match s with
  | String "." s' =>
      match take_digits s' with
      | (EmptyString, _) => None
      | (d, rest) => Some (String "." d, rest)
      end
  | _ => Some (EmptyString, s)
  end.

Definition take_exp (s : string) : option (string * string) :=
  let digits pre s' :=
    match take_digits s' with
    | (EmptyString, _) => None
    | (d, rest) => Some ((pre ++ d)%string, rest)
    end in
  match s with
  | String "e" (String "+" s') => digits "e+" s'
  | String "e" (String "-" s') => digits "e-" s'
  | String "e" s' => digits "e" s'
  | String "E" (String "+" s') => digits "E+" s'
  | String "E" (String "-" s') => digits "E-" s'
  | String "E" s' => digits "E" s'
  | _ => Some (EmptyString, s)
  end.

(** A number literal and what follows it. *)
Definition parse_number (s : string) : option (string * string) :=
  let '(sign, s1) := match s with
                     | String "-" s' => ("-", s')
                     | _ => (EmptyString, s)
                     end in
  match take_int s1 with
  | None => None
  | Some (i, s2) =>
      match take_frac s2 with
      | None => None
      | Some (f, s3) =>
          match take_exp s3 with
          | None => None
          | Some (e, s4) => Some ((sign ++ i ++ f ++ e)%string, s4)
          end
      end
  end.

Definition chr (n : Z) : ascii := ascii_of_N (Z.to_N n).

(** The UTF-8 encoding of a code point. *)
Definition utf8 (cp : Z) : string :=
  if cp <? 128 then String (chr cp) EmptyString
  else if cp <? 2048 then
    String (chr (Z.lor 192 (Z.shiftr cp 6)))
      (String (chr (Z.lor 128 (Z.land cp 63))) EmptyString)
  else if cp <? 65536 then
    String (chr (Z.lor 224 (Z.shiftr cp 12)))
      (String (chr (Z.lor 128 (Z.land (Z.shiftr cp 6) 63)))
         (String (chr (Z.lor 128 (Z.land cp 63))) EmptyString))
  else
    String (chr (Z.lor 240 (Z.shiftr cp 18)))
      (String (chr (Z.lor 128 (Z.land (Z.shiftr cp 12) 63)))
         (String (chr (Z.lor 128 (Z.land (Z.shiftr cp 6) 63)))
            (String (chr (Z.lor 128 (Z.land cp 63))) EmptyString))).

Definition hex4 (s : string) : option (Z * string) :=
  match s with
  | String a (String b (String c (String d rest))) =>
      match hex_val a, hex_val b, hex_val c, hex_val d with
      | Some a, Some b, Some c, Some d => Some (((a * 16 + b) * 16 + c) * 16 + d, rest)
      | _, _, _, _ => None
      end
  | _ => None
  end.

(** The text of a string after its opening quote, up to the closing one. A
    surrogate that is not followed by its pair decodes to U+FFFD. *)
Fixpoint parse_chars (fuel : nat) (s : string) : option (string * string) :=
  match fuel with
  | O => None
  | S fuel' =>
      let cons (c : string) (r : option (string * string)) :=
        match r with
        | Some (t, rest) => Some ((c ++ t)%string, rest)
        | None => None
        end in
      match s with
      | EmptyString => None
      | String "034" rest => Some (EmptyString, rest)
      | String "\" (String "u" s') =>
          match hex4 s' with
          | None => None
          | Some (hi, s'') =>
              if (55296 <=? hi) && (hi <? 56320) then
                match s'' with
                | String "\" (String "u" s3) =>
                    match hex4 s3 with
                    | Some (lo, s4) =>
                        if (56320 <=? lo) && (lo <? 57344) then
                          cons (utf8 (65536 + (hi - 55296) * 1024 + (lo - 56320)))
                               (parse_chars fuel' s4)
                        else cons (utf8 65533) (parse_chars fuel' s'')
                    | None => None
                    end
                | _ => cons (utf8 65533) (parse_chars fuel' s'')
                end
              else if (56320 <=? hi) && (hi <? 57344) then
                cons (utf8 65533) (parse_chars fuel' s'')
              else cons (utf8 hi) (parse_chars fuel' s'')
          end
      | String "\" (String c s') =>
          let esc (n : Z) := cons (String (chr n) EmptyString) (parse_chars fuel' s') in
          if Ascii.eqb c "034" then esc 34
          else if Ascii.eqb c "\" then esc 92
          else if Ascii.eqb c "/" then esc 47
          else if Ascii.eqb c "b" then esc 8
          else if Ascii.eqb c "f" then esc 12
          else if Ascii.eqb c "n" then esc 10
          else if Ascii.eqb c "r" then esc 13
          else if Ascii.eqb c "t" then esc 9
          else None
      | String c s' =>
          if Z.of_N (N_of_ascii c) <? 32 then None
          else cons (String c EmptyString) (parse_chars fuel' s')
      end
  end.

End JSON.

Module JSONValue.
Import JSON.

(** One value and what follows it; [parse_elems] reads the elements of an
    array after its opening bracket, [parse_members] the members of an
    object after its opening brace. The fuel bounds the nesting and the
    number of elements: the length of the input is enough. *)
Fixpoint parse_value (fuel : nat) (s : string) : option (json * string) :=
  match fuel with
  | O => None
  | S fuel' =>
      match skip_ws s with
      | String "n" (String "u" (String "l" (String "l" rest))) => Some (JNull, rest)
      | String "t" (String "r" (String "u" (String "e" rest))) => Some (JBool true, rest)
      | String "f" (String "a" (String "l" (String "s" (String "e" rest)))) =>
          Some (JBool false, rest)
      | String "034" rest =>
          match parse_chars (S (String.length rest)) rest with
          | Some (t, rest') => Some (JStr t, rest')
          | None => None
          end
      | String "[" rest =>
          match skip_ws rest with
          | String "]" rest' => Some (JArr [], rest')
          | _ =>
              match parse_elems fuel' rest with
              | Some (l, rest') => Some (JArr l, rest')
              | None => None
              end
          end
      | String "{" rest =>
          match skip_ws rest with
          | String "}" rest' => Some (JObj [], rest')
          | _ =>
              match parse_members fuel' rest with
              | Some (l, rest') => Some (JObj l, rest')
              | None => None
              end
          end
      | s' =>
          match parse_number s' with
          | Some (lit, rest) => Some (JNum lit, rest)
          | None => None
          end
      end
  end
with parse_elems (fuel : nat) (s : string) : option (list json * string) :=
  match fuel with
  | O => None
  | S fuel' =>
      match parse_value fuel' s with
      | None => None
      | Some (v, rest) =>
          match skip_ws rest with
          | String "]" rest' => Some ([v], rest')
          | String "," rest' =>
              match parse_elems fuel' rest' with
              | Some (l, rest'') => Some (v :: l, rest'')
              | None => None
              end
          | _ => None
          end
      end
  end
with parse_members (fuel : nat) (s : string) : option (list (string * json) * string) :=
  match fuel with
  | O => None
  | S fuel' =>
      match skip_ws s with
      | String "034" s1 =>
          match parse_chars (S (String.length s1)) s1 with
          | None => None
          | Some (k, s2) =>
              match skip_ws s2 with
              | String ":" s3 =>
                  match parse_value fuel' s3 with
                  | None => None
                  | Some (v, s4) =>
                      match skip_ws s4 with
                      | String "}" rest => Some ([(k, v)], rest)
                      | String "," rest =>
                          match parse_members fuel' rest with
                          | Some (l, rest') => Some ((k, v) :: l, rest')
                          | None => None
                          end
                      | _ => None
                      end
                  end
              | _ => None
              end
          end
      | _ => None
      end
  end.

(** A whole document: one value, with nothing but white space around it. *)
Definition parse (s : string) : option json :=
  match parse_value (2 * S (String.length s)) s with
  | Some (v, rest) =>
      match skip_ws rest with
      | EmptyString => Some v
      | _ => None
      end
  | None => None
  end.

End JSONValue.

Module Decode.
Import JSON JSONValue.

Fixpoint digits_val (acc : Z) (s : string) : option Z :=
  match s with
  | EmptyString => Some acc
  | String c s' =>
      match digit_val c with
      | Some d => digits_val (acc * 10 + d) s'
      | None => None
      end
  end.

(** A number literal stored in an [int64]: it has no fraction and no
    exponent, and is in range. *)
Definition int64_of_lit (lit : string) : option Z :=
  let v := match lit with
           | String "-" d => option_map Z.opp (digits_val 0 d)
           | _ => digits_val 0 lit
           end in
  match v with
  | Some n => if (-9223372036854775808 <=? n) && (n <=? 9223372036854775807)
              then Some n else None
  | None => None
  end.

Definition type_error {A} (what : string) : result A :=
  Err ("json: cannot unmarshal value into Go struct field " ++ what)%string.

(** The members of an object are stored one after the other into the
    fields they name, so the later of two members with one key stays; a
    member with another key is skipped, and [null] leaves a field as it
    is (and sets a pointer to [nil]). *)
Section Fields.
Context {A : Type} (set_field : string -> json -> A -> result A).

Fixpoint fields (l : list (string * json)) (a : A) : result A :=
  match l with
  | [] => Ok a
  | (k, v) :: l' =>
      match set_field k v a with
      | Ok a' => fields l' a'
      | Err e => Err e
      end
  end.

Definition object (what : string) (v : json) (a : A) : result A :=
  match v with
  | JNull => Ok a
  | JObj l => fields l a
  | _ => type_error what
  end.
End Fields.

Section Elems.
Context {A : Type} (elem : json -> result A).

Fixpoint elems (l : list json) : result (list A) :=
  match l with
  | [] => Ok []
  | v :: l' =>
      match elem v with
      | Ok a =>
          match elems l' with
          | Ok r => Ok (a :: r)
          | Err e => Err e
          end
      | Err e => Err e
      end
  end.
End Elems.

Definition int64 (what : string) (v : json) (old : Z) : result Z :=
  match v with
  | JNull => Ok old
  | JNum lit =>
      match int64_of_lit lit with
      | Some n => Ok n
      | None => type_error what
      end
  | _ => type_error what
  end.

Definition sender (v : json) (s : Sender) : result Sender :=
  object (fun k v s =>
            if String.eqb k "id" then
              match int64 "Sender.id" v (Sender_ID s) with
              | Ok n => Ok (mkSender n)
              | Err e => Err e
              end
            else Ok s) "MessageInfo.sender" v s.

Definition recipient (v : json) (s : Recipient) : result Recipient :=
  object (fun k v s =>
            if String.eqb k "id" then
              match int64 "Recipient.id" v (Recipient_ID s) with
              | Ok n => Ok (mkRecipient n)
              | Err e => Err e
              end
            else Ok s) "MessageInfo.recipient" v s.

(** A payload behind a pointer: [null] is [nil], an object is the
    payload. *)
Definition pointer {A} (what : string) (mk : list (string * json) -> A)
    (v : json) : result (option A) :=
  match v with
  | JNull => Ok None
  | JObj l => Ok (Some (mk l))
  | _ => type_error what
  end.

Definition zeroSender := mkSender 0.
Definition zeroRecipient := mkRecipient 0.

Definition zeroMessageInfo : MessageInfo :=
  mkMessageInfo zeroSender zeroRecipient 0 None None None None None None None.

Definition with_result {A B} (r : result A) (k : A -> B) : result B :=
  match r with
  | Ok a => Ok (k a)
  | Err e => Err e
  end.

Definition messageInfo_field (k : string) (v : json) (i : MessageInfo)
    : result MessageInfo :=
  let '(mkMessageInfo s r t m d rd pb oi rf al) := i in
  if String.eqb k "sender" then
    with_result (sender v s) (fun s' => mkMessageInfo s' r t m d rd pb oi rf al)
  else if String.eqb k "recipient" then
    with_result (recipient v r) (fun r' => mkMessageInfo s r' t m d rd pb oi rf al)
  else if String.eqb k "timestamp" then
    with_result (int64 "MessageInfo.timestamp" v t)
      (fun t' => mkMessageInfo s r t' m d rd pb oi rf al)
  else if String.eqb k "message" then
    with_result
      (pointer "MessageInfo.message"
         (fun l => mkMessage l zeroSender zeroRecipient ZeroTime) v)
      (fun m' => mkMessageInfo s r t m' d rd pb oi rf al)
  else if String.eqb k "delivery" then
    with_result (pointer "MessageInfo.delivery" mkDelivery v)
      (fun d' => mkMessageInfo s r t m d' rd pb oi rf al)
  else if String.eqb k "read" then
    with_result (pointer "MessageInfo.read" mkRead v)
      (fun rd' => mkMessageInfo s r t m d rd' pb oi rf al)
  else if String.eqb k "postback" then
    with_result
      (pointer "MessageInfo.postback"
         (fun l => mkPostBack l zeroSender zeroRecipient ZeroTime) v)
      (fun pb' => mkMessageInfo s r t m d rd pb' oi rf al)
  else if String.eqb k "optin" then
    with_result
      (pointer "MessageInfo.optin"
         (fun l => mkOptIn l zeroSender zeroRecipient ZeroTime) v)
      (fun oi' => mkMessageInfo s r t m d rd pb oi' rf al)
  else if String.eqb k "referral" then
    with_result
      (pointer "MessageInfo.referral"
         (fun l => mkReferralMessage l zeroSender zeroRecipient ZeroTime) v)
      (fun rf' => mkMessageInfo s r t m d rd pb oi rf' al)
  else if String.eqb k "account_linking" then
    with_result
      (pointer "MessageInfo.account_linking"
         (fun l => mkAccountLinking l zeroSender zeroRecipient ZeroTime) v)
      (fun al' => mkMessageInfo s r t m d rd pb oi rf al')
  else Ok i.

Definition messageInfo (v : json) : result MessageInfo :=
  object messageInfo_field "Entry.messaging" v zeroMessageInfo.

Definition slice {A} (what : string) (elem : json -> result A) (v : json)
    (old : list A) : result (list A) :=
  match v with
  | JNull => Ok old
  | JArr l => elems elem l
  | _ => type_error what
  end.

Definition entry_field (k : string) (v : json) (e : Entry) : result Entry :=
  if String.eqb k "messaging" then
    with_result (slice "Entry.messaging" messageInfo v (Entry_Messaging e)) mkEntry
  else Ok e.

Definition entry (v : json) : result Entry :=
  object entry_field "Receive.entry" v (mkEntry []).

Definition receive_field (k : string) (v : json) (r : Receive) : result Receive :=
  if String.eqb k "object" then
    match v with
    | JNull => Ok r
    | JStr s => Ok (mkReceive s (Receive_Entry r))
    | _ => type_error "Receive.object"
    end
  else if String.eqb k "entry" then
    with_result (slice "Receive.entry" entry v (Receive_Entry r))
      (mkReceive (Receive_Object r))
  else Ok r.

(** [json.Unmarshal(body, &rec)] for [var rec Receive]. The texts of the
    errors are not those of the library. Keys are matched as they are
    spelled in the struct tags. *)
Definition Unmarshal (body : list byte) : result Receive :=
  match body with
  | [] => Err "unexpected end of JSON input"
  | _ =>
      match parse (string_of_bytes body) with
      | None => Err "invalid character in JSON input"
      | Some v => object receive_field "Receive" v (mkReceive EmptyString [])
      end
  end.

End Decode.

(** ** net/http, io/ioutil, fmt *)

(** A request: its method, its header (canonical keys), the values of its
    URL query as [FormValue] parses them, the bytes its body still has to
    give, and its context. *)
Record Request := mkRequest {
  Method : string;
  Header : gmap string (list string);
  Form : gmap string (list string);
  Body : list byte;
  Ctx : Context }.

(** What a [http.ResponseWriter] has been given: the status, once the header
    is written, and the body. The header fields of the response are left
    out. *)
Record ResponseWriter := mkResponseWriter {
  status : option Z;
  written : string }.

Definition newResponseWriter : ResponseWriter := mkResponseWriter None EmptyString.

Definition StatusOK : Z := 200.
Definition StatusForbidden : Z := 403.
Definition StatusUnprocessableEntity : Z := 422.

Definition newline : string := String "010" EmptyString.

(** [w.WriteHeader(code)]: a second call changes nothing. *)
Definition WriteHeader (w : ResponseWriter) (code : Z) : ResponseWriter :=
  match status w with
  | Some _ => w
  | None => mkResponseWriter (Some code) (written w)
  end.

(** [w.Write]: writes the header with 200 first when it is not written. *)
Definition Write (w : ResponseWriter) (s : string) : ResponseWriter :=
  let w' := WriteHeader w StatusOK in
  mkResponseWriter (status w') (written w' ++ s)%string.

(** [fmt.Fprintln(w, s)] for one string. *)
Definition Fprintln (w : ResponseWriter) (s : string) : ResponseWriter :=
  Write w (s ++ newline)%string.

(** [http.Error(w, msg, code)]. *)
Definition http_Error (w : ResponseWriter) (msg : string) (code : Z) : ResponseWriter :=
  Fprintln (WriteHeader w code) msg.

(** [h.Get(key)] and [r.FormValue(key)]: the first value, or the empty
    string. *)
Definition first_value (m : gmap string (list string)) (key : string) : string :=
  match m !! key with
  | Some (v :: _) => v
  | _ => EmptyString
  end.

Definition Header_Get (r : Request) (key : string) : string := first_value (Header r) key.
Definition FormValue (r : Request) (key : string) : string := first_value (Form r) key.

(** [ioutil.ReadAll(r.Body)]: the bytes left, and the body at its end. *)
Definition ReadAll (r : Request) : list byte * Request :=
  (Body r, mkRequest (Method r) (Header r) (Form r) [] (Ctx r)).

(** [r.Body = ioutil.NopCloser(bytes.NewBuffer(body))]. *)
Definition set_Body (r : Request) (body : list byte) : Request :=
  mkRequest (Method r) (Header r) (Form r) body (Ctx r).

(** ** messenger.go *)

Definition New (mo : Options) : Messenger :=
  let c := match Options_Client mo with
           | None => DefaultClient
           | Some c => c
           end in
  {| client := c;
     token := Options_Token mo;
     verify := Options_Verify mo;
     appSecret := Options_AppSecret mo;
     verifyToken := Options_VerifyToken mo |}.

Definition is_some {A} (o : option A) : bool :=
  match o with
  | Some _ => true
  | None => false
  end.

Definition classify (m : Messenger) (info : MessageInfo) (e : Entry) : Action :=
  if is_some (Info_Message info) then TextAction
  else if is_some (Info_Delivery info) then DeliveryAction
  else if is_some (Info_Read info) then ReadAction
  else if is_some (Info_PostBack info) then PostBackAction
  else if is_some (Info_OptIn info) then OptInAction
  else if is_some (Info_ReferralMessage info) then ReferralAction
  else if is_some (Info_AccountLinking info) then AccountLinkingAction
  else UnknownAction.

Definition verifyHandler (m : Messenger) (w : ResponseWriter) (r : Request)
    : ResponseWriter :=
  if String.eqb (FormValue r "hub.verify_token") (verifyToken m) then
    Fprintln w (FormValue r "hub.challenge")
  else http_Error w "Incorrect verify token" StatusForbidden.

Definition sigHeader : string := "X-Hub-Signature".

(** The closure [checkSHA1] of [checkIntegrity]. *)
Definition checkSHA1 (m : Messenger) (body : list byte) (hash : string) : option string :=
  if negb (String.eqb (hex (Crypto.hmac_sha1 (bytes_of_string (appSecret m)) body)) hash)
  then Some ("invalid signature: " ++ hash)%string
  else None.

(** [checkIntegrity] returns its error ([None] is [nil]) and leaves the
    request it was given, whose body it may have read and put back. *)
Definition checkIntegrity (m : Messenger) (r : Request) : option string * Request :=
  if String.eqb (appSecret m) EmptyString then (Some "missing app secret", r)
  else
    match SplitN_eq_2 (Header_Get r sigHeader) with
    | (sig0, None) =>
        if String.eqb sig0 EmptyString
        then (Some ("missing " ++ sigHeader ++ " header")%string, r)
        else (Some ("malformed " ++ sigHeader ++ " header: " ++ Join [sig0] "=")%string, r)
    | (sig0, Some sig1) =>
        let '(body, r) := ReadAll r in
        let r := set_Body r body in
        let sigEnc := ToLower sig0 in
        let sigHash := ToLower sig1 in
        if String.eqb sigEnc "sha1" then (checkSHA1 m body sigHash, r)
        else (Some ("unknown " ++ sigHeader ++ " header encoding, expected sha1: "
                      ++ sig0)%string, r)
    end.

(** The [for _, f := range] loops over the handlers of a category: each
    handler is called with the value [arg] builds for it. *)
Definition call_handlers (hs : list Handler) (a : Action) (ctx : Context)
    (arg : Payload) (resp : Response) (log : list Event) : list Event :=
  fold_left (fun log f => log ++ [Invoke (mkCall f a ctx arg resp)]) hs log.

(** [time.Unix(info.Timestamp/int64(time.Microsecond), 0)]; the division of
    Go integers truncates toward zero. *)
Definition event_time (info : MessageInfo) : Time :=
  Unix (Z.quot (Info_Timestamp info) time_Microsecond) 0.

(** The body of the inner loop of [dispatch], for one event. A branch of the
    [switch] dereferences the pointer [classify] found set; on [None] (a
    [nil] pointer, which [classify] excludes) nothing is called. *)
Definition dispatch_info (m : Messenger) (H : Registry) (ctx : Context)
    (entry : Entry) (info : MessageInfo) (log : list Event) : list Event :=
  let a := classify m info entry in
  if decide (a = UnknownAction) then log ++ [PrintUnknownAction info]
  else
    let resp := {| Response_to := mkRecipient (Sender_ID (Info_Sender info));
                   Response_token := token m;
                   Response_client := client m |} in
    match a with
    | TextAction =>
        match Info_Message info with
        | Some v =>
            let message :=
              mkMessage (Message_Fields v) (Info_Sender info) (Info_Recipient info)
                (event_time info) in
            call_handlers (messageHandlers H) a ctx (PMessage message) resp log
        | None => log
        end
    | DeliveryAction =>
        match Info_Delivery info with
        | Some v => call_handlers (deliveryHandlers H) a ctx (PDelivery v) resp log
        | None => log
        end
    | ReadAction =>
        match Info_Read info with
        | Some v => call_handlers (readHandlers H) a ctx (PRead v) resp log
        | None => log
        end
    | PostBackAction =>
        match Info_PostBack info with
        | Some v =>
            let message :=
              mkPostBack (PostBack_Fields v) (Info_Sender info) (Info_Recipient info)
                (event_time info) in
            call_handlers (postBackHandlers H) a ctx (PPostBack message) resp log
        | None => log
        end
    | OptInAction =>
        match Info_OptIn info with
        | Some v =>
            let message :=
              mkOptIn (OptIn_Fields v) (Info_Sender info) (Info_Recipient info)
                (event_time info) in
            call_handlers (optInHandlers H) a ctx (POptIn message) resp log
        | None => log
        end
    | ReferralAction =>
        match Info_ReferralMessage info with
        | Some v =>
            let message :=
              mkReferralMessage (ReferralMessage_Fields v) (Info_Sender info)
                (Info_Recipient info) (event_time info) in
            call_handlers (referralHandlers H) a ctx (PReferral message) resp log
        | None => log
        end
    | AccountLinkingAction =>
        match Info_AccountLinking info with
        | Some v =>
            let message :=
              mkAccountLinking (AccountLinking_Fields v) (Info_Sender info)
                (Info_Recipient info) (event_time info) in
            call_handlers (accountLinkingHandlers H) a ctx (PAccountLinking message) resp log
        | None => log
        end
    | UnknownAction => log
    end.

(** [dispatch]: the two nested loops, threading the events produced so
    far. *)
Definition dispatch (m : Messenger) (H : Registry) (ctx : Context) (r : Receive)
    (log : list Event) : list Event :=
  fold_left
    (fun log entry =>
       fold_left (fun log info => dispatch_info m H ctx entry info log)
         (Entry_Messaging entry) log)
    (Receive_Entry r) log.

Definition ack : string := "{status: 'ok'}".

(** [Handle], for a decoder [Unmarshal] of the request body. It gives the
    response written, the request as it is left, and the events. *)
Section Handle.
Variable Unmarshal : list byte -> result Receive.

Definition Handle (m : Messenger) (H : Registry) (w : ResponseWriter) (r : Request)
    : ResponseWriter * Request * list Event :=
  if String.eqb (Method r) "GET" then (verifyHandler m w r, r, [])
  else
    let ctx := Ctx r in
    let '(body, r) := ReadAll r in
    let r := set_Body r body in
    match Unmarshal body with
    | Err err =>
        (http_Error w err StatusUnprocessableEntity, r, [PrintDecodeError err])
    | Ok rec =>
        if negb (String.eqb (Receive_Object rec) "page") then
          (http_Error w ("Object is not page, undefined behaviour. Got: "
                           ++ Receive_Object rec)%string
             StatusUnprocessableEntity, r, [])
        else
          if verify m then
            match checkIntegrity m r with
            | (Some err, r) =>
                (http_Error w err StatusForbidden, r, [PrintVerifyError err])
            | (None, r) => (Fprintln w ack, r, dispatch m H ctx rec [])
            end
          else (Fprintln w ack, r, dispatch m H ctx rec [])
    end.
End Handle.

(** ** The claims in the words of the specification *)

(** Whether the optional payload field of a category is populated. *)
Definition populated (a : Action) (info : MessageInfo) : bool :=
  match a with
  | TextAction => is_some (Info_Message info)
  | DeliveryAction => is_some (Info_Delivery info)
  | ReadAction => is_some (Info_Read info)
  | PostBackAction => is_some (Info_PostBack info)
  | OptInAction => is_some (Info_OptIn info)
  | ReferralAction => is_some (Info_ReferralMessage info)
  | AccountLinkingAction => is_some (Info_AccountLinking info)
  | UnknownAction => false
  end.

(** Message > Delivery > Read > PostBack > OptIn > ReferralMessage >
    AccountLinking. *)
Definition precedence : list Action :=
  [TextAction; DeliveryAction; ReadAction; PostBackAction; OptInAction;
   ReferralAction; AccountLinkingAction].

(** The position of a category in the precedence order. *)
Definition rank (a : Action) : nat :=
  match a with
  | TextAction => 0
  | DeliveryAction => 1
  | ReadAction => 2
  | PostBackAction => 3
  | OptInAction => 4
  | ReferralAction => 5
  | AccountLinkingAction => 6
  | UnknownAction => 7
  end.

(** The categories whose field is populated, in the precedence order. *)
Definition populated_categories (info : MessageInfo) : list Action :=
  List.filter (fun a => populated a info) precedence.

(** The classifier of the specification: the first match wins. *)
Definition first_populated (info : MessageInfo) : Action :=
  hd UnknownAction (populated_categories info).

(** The handler calls among the events. *)
Fixpoint calls (ev : list Event) : list Call :=
  match ev with
  | [] => []
  | Invoke c :: ev' => c :: calls ev'
  | _ :: ev' => calls ev'
  end.

(** The JSON fields of the populated payload of a category. *)
Definition populated_fields (a : Action) (info : MessageInfo)
    : option (list (string * json)) :=
  match a with
  | TextAction => option_map Message_Fields (Info_Message info)
  | DeliveryAction => option_map Delivery_Fields (Info_Delivery info)
  | ReadAction => option_map Read_Fields (Info_Read info)
  | PostBackAction => option_map PostBack_Fields (Info_PostBack info)
  | OptInAction => option_map OptIn_Fields (Info_OptIn info)
  | ReferralAction => option_map ReferralMessage_Fields (Info_ReferralMessage info)
  | AccountLinkingAction => option_map AccountLinking_Fields (Info_AccountLinking info)
  | UnknownAction => None
  end.

Definition Payload_category (p : Payload) : Action :=
  match p with
  | PMessage _ => TextAction
  | PDelivery _ => DeliveryAction
  | PRead _ => ReadAction
  | PPostBack _ => PostBackAction
  | POptIn _ => OptInAction
  | PReferral _ => ReferralAction
  | PAccountLinking _ => AccountLinkingAction
  end.

Definition Payload_Fields (p : Payload) : list (string * json) :=
  match p with
  | PMessage v => Message_Fields v
  | PDelivery v => Delivery_Fields v
  | PRead v => Read_Fields v
  | PPostBack v => PostBack_Fields v
  | POptIn v => OptIn_Fields v
  | PReferral v => ReferralMessage_Fields v
  | PAccountLinking v => AccountLinking_Fields v
  end.

(** The sender, recipient and time a handler finds in the value it is
    given, when its type has them. *)
Definition Payload_enrichment (p : Payload) : option (Sender * Recipient * Time) :=
  match p with
  | PMessage v => Some (Message_Sender v, Message_Recipient v, Message_Time v)
  | PDelivery _ => None
  | PRead _ => None
  | PPostBack v => Some (PostBack_Sender v, PostBack_Recipient v, PostBack_Time v)
  | POptIn v => Some (OptIn_Sender v, OptIn_Recipient v, OptIn_Time v)
  | PReferral v =>
      Some (ReferralMessage_Sender v, ReferralMessage_Recipient v, ReferralMessage_Time v)
  | PAccountLinking v =>
      Some (AccountLinking_Sender v, AccountLinking_Recipient v, AccountLinking_Time v)
  end.

(** The categories whose payload [dispatch] enriches. *)
Definition enriched_category (a : Action) : bool :=
  match a with
  | TextAction | PostBackAction | OptInAction | ReferralAction | AccountLinkingAction => true
  | DeliveryAction | ReadAction | UnknownAction => false
  end.

(** The events of one request, served with a fresh response writer. *)
Definition response (x : ResponseWriter * Request * list Event) : ResponseWriter :=
  fst (fst x).
Definition request_left (x : ResponseWriter * Request * list Event) : Request :=
  snd (fst x).
Definition events (x : ResponseWriter * Request * list Event) : list Event := snd x.

(** A string in which each apostrophe stands for a double quote: the JSON
    texts of the examples are written with it. *)
Fixpoint dq (s : string) : string :=
  match s with
  | EmptyString => EmptyString
  | String c s' => String (if Ascii.eqb c "'" then "034"%char else c) (dq s')
  end.

(** ** Example data *)

(** Events with a text message, with no payload, and with a delivery
    report. *)
Definition text_event (sender recipient ts : Z) (text : string) : MessageInfo :=
  mkMessageInfo (mkSender sender) (mkRecipient recipient) ts
    (Some (mkMessage [("text", JStr text)] Decode.zeroSender Decode.zeroRecipient ZeroTime))
    None None None None None None.

Definition empty_event (sender recipient ts : Z) : MessageInfo :=
  mkMessageInfo (mkSender sender) (mkRecipient recipient) ts
    None None None None None None None.

Definition delivery_event (sender recipient ts : Z) : MessageInfo :=
  mkMessageInfo (mkSender sender) (mkRecipient recipient) ts
    None (Some (mkDelivery [("watermark", JNum "5")])) None None None None None.

(** A client with the verify token [abc], in and out of the verify mode. *)
Definition plain_messenger : Messenger :=
  New (mkOptions false EmptyString "abc" "tok" None).

Definition verifying_messenger : Messenger :=
  New (mkOptions true "secret" "abc" "tok" None).

(** A registry with one handler in every category. *)
Definition one_each : Registry :=
  mkRegistry ["onMessage"] ["onDelivery"] ["onRead"] ["onPostBack"] ["onOptIn"]
    ["onReferral"] ["onAccountLinking"].

(** The body of the example of the specification, and envelopes that are
    not from a page subscription or are not JSON at all. *)
Definition page_body : list byte :=
  bytes_of_string
    (dq "{'object':'page','entry':[{'messaging':[{'sender':{'id':1},'recipient':{'id':2},'timestamp':1000000,'message':{'text':'hi'}}]}]}").

Definition user_body : list byte :=
  bytes_of_string (dq "{'object':'user','entry':[]}").

Definition broken_body : list byte := bytes_of_string "{not json".

Definition post (header : gmap string (list string)) (body : list byte) : Request :=
  mkRequest "POST" header ∅ body 0%nat.

Definition get (form : gmap string (list string)) : Request :=
  mkRequest "GET" ∅ form [] 0%nat.

(** The header a holder of the secret sends with a body. *)
Definition sign (secret : string) (body : list byte) : gmap string (list string) :=
  {[ sigHeader := [("sha1=" ++ hex (Crypto.hmac_sha1 (bytes_of_string secret) body))%string] ]}.

(** The one bit of a byte: the body and the secret with their first byte
    changed in its lowest bit. *)
Definition flip_first (b : list byte) : list byte :=
  match b with
  | [] => []
  | x :: b' => Crypto.byte_of_Z (Z.lxor (Crypto.Z_of_byte x) 1) :: b'
  end.

(** The handshake request of the specification, with a token and a
    challenge. *)
Definition handshake (tok challenge : string) : Request :=
  get (<["hub.verify_token" := [tok]]> {["hub.challenge" := [challenge]]}).

(** The message the handlers are given for [page_body]. *)
Definition hi_message : Message :=
  mkMessage [("text", JStr "hi")] (mkSender 1) (mkRecipient 2) (Unix 1000 0).

(** A malformed event with both a delivery report and a postback. *)
Definition ambiguous_event : MessageInfo :=
  mkMessageInfo (mkSender 1) (mkRecipient 2) 1000
    None (Some (mkDelivery [])) None
    (Some (mkPostBack [("payload", JStr "start")] Decode.zeroSender Decode.zeroRecipient
             ZeroTime))
    None None None.

(** ** Further definitions for the properties of the pipeline *)

(** The handlers the registry holds for a category. *)
Definition handlers_of (H : Registry) (a : Action) : list Handler :=
  match a with
  | TextAction => messageHandlers H
  | DeliveryAction => deliveryHandlers H
  | ReadAction => readHandlers H
  | PostBackAction => postBackHandlers H
  | OptInAction => optInHandlers H
  | ReferralAction => referralHandlers H
  | AccountLinkingAction => accountLinkingHandlers H
  | UnknownAction => []
  end.

(** The events of an envelope, in array order. *)
Definition all_events (r : Receive) : list MessageInfo :=
  flat_map Entry_Messaging (Receive_Entry r).

(** An event none of whose payload fields is populated. *)
Definition no_payload (info : MessageInfo) : bool :=
  forallb (fun a => negb (populated a info)) precedence.

(** The events printed as unknown, and the other lines printed. *)
Fixpoint printed_unknown (ev : list Event) : list MessageInfo :=
  match ev with
  | [] => []
  | PrintUnknownAction info :: ev' => info :: printed_unknown ev'
  | _ :: ev' => printed_unknown ev'
  end.

Fixpoint printed_errors (ev : list Event) : list string :=
  match ev with
  | [] => []
  | PrintDecodeError err :: ev' => err :: printed_errors ev'
  | PrintVerifyError err :: ev' => err :: printed_errors ev'
  | _ :: ev' => printed_errors ev'
  end.

(** The same request under another method, or with another header. *)
Definition set_Method (r : Request) (method : string) : Request :=
  mkRequest method (Header r) (Form r) (Body r) (Ctx r).

Definition set_Header (r : Request) (header : gmap string (list string)) : Request :=
  mkRequest (Method r) header (Form r) (Body r) (Ctx r).

(** ** SetupHandler and Handler *)

(** A [*http.ServeMux] is a location in a store of muxes: a mux given in
    [MuxOptions] is shared by the clients set up with it. *)
Definition loc := nat.

Record MuxOptions := mkMuxOptions {
  MuxOptions_Mux : option loc;
  MuxOptions_WebhookURL : string }.

(** The client with its field [mux], which [New] leaves [nil] and [Handle]
    does not read. *)
Record Server := mkServer {
  Server_messenger : Messenger;
  Server_mux : option loc }.

Definition newServer (mo : Options) : Server := mkServer (New mo) None.

Module Setup.
Section Mux.
(** The muxes of net/http: the empty mux of [http.NewServeMux()], and
    [mux.HandleFunc(pattern, m.Handle)], which registers the handler of a
    client under a pattern or panics ([None]). *)
Variable ServeMux : Type.
Variable NewServeMux : ServeMux.
Variable HandleFunc : ServeMux -> string -> Messenger -> option ServeMux.

(** [SetupHandler] writes the mux and the path it settles on into the
    options it was given by pointer, and into the client; the result is
    [None] when [HandleFunc] panics. *)
Definition SetupHandler (h : gmap loc ServeMux) (m : Server) (mo : MuxOptions)
    : option (gmap loc ServeMux * Server * MuxOptions) :=
  let '(h, mo) :=
    match MuxOptions_Mux mo with
    | None =>
        let l := fresh (dom h) in
        (<[l := NewServeMux]> h, mkMuxOptions (Some l) (MuxOptions_WebhookURL mo))
    | Some _ => (h, mo)
    end in
  let mo :=
    if String.eqb (MuxOptions_WebhookURL mo) EmptyString
    then mkMuxOptions (MuxOptions_Mux mo) "/"
    else mo in
  let m := mkServer (Server_messenger m) (MuxOptions_Mux mo) in
  match Server_mux m with
  | Some l =>
      match h !! l with
      | Some mux =>
          match HandleFunc mux (MuxOptions_WebhookURL mo) (Server_messenger m) with
          | Some mux' => Some (<[l := mux']> h, m, mo)
          | None => None
          end
      | None => None
      end
  | None => None
  end.

(** [Handler] gives the mux of the client, set up with the options
    [&MuxOptions{}] when the client has none. *)
Definition Handler (h : gmap loc ServeMux) (m : Server)
    : option (gmap loc ServeMux * Server * loc) :=
  match Server_mux m with
  | None =>
      match SetupHandler h m (mkMuxOptions None EmptyString) with
      | Some (h', m', _) =>
          match Server_mux m' with
          | Some l => Some (h', m', l)
          | None => None
          end
      | None => None
      end
  | Some l => Some (h, m, l)
  end.

End Mux.
End Setup.

(** A mux that keeps the patterns registered with their clients, in order,
    and panics on the empty pattern and on a pattern registered before. *)
Definition route_list := list (string * Messenger).

Definition route_HandleFunc (mux : route_list) (pattern : string) (m : Messenger)
    : option route_list :=
  if String.eqb pattern EmptyString then None
  else if existsb (fun route => String.eqb (fst route) pattern) mux then None
  else Some (mux ++ [(pattern, m)]).

(** * Properties *)

(** ** The loops of [dispatch] *)

Lemma call_handlers_app hs a ctx arg resp log :
  call_handlers hs a ctx arg resp log
  = log ++ map (fun f => Invoke (mkCall f a ctx arg resp)) hs.
Proof.
  unfold call_handlers. revert log.
  induction hs as [|f hs IH]; intros log; simpl.
  - now rewrite app_nil_r.
  - rewrite IH, <- app_assoc. reflexivity.
Qed.

Lemma dispatch_info_app m H ctx e info log :
  dispatch_info m H ctx e info log = log ++ dispatch_info m H ctx e info [].
Proof.
  unfold dispatch_info.
  destruct (decide (classify m info e = UnknownAction)); [reflexivity|].
  destruct (classify m info e); rewrite ?app_nil_r; try reflexivity;
    match goal with
    | |- context [match ?o with Some _ => _ | None => _ end] => destruct o
    end; rewrite ?app_nil_r; try reflexivity;
    rewrite !call_handlers_app; reflexivity.
Qed.

Lemma dispatch_events_flat m H ctx e l log :
  fold_left (fun log info => dispatch_info m H ctx e info log) l log
  = log ++ flat_map (fun info => dispatch_info m H ctx e info []) l.
Proof.
  revert log. induction l as [|info l IH]; intros log; simpl.
  - now rewrite app_nil_r.
  - rewrite IH, dispatch_info_app, <- app_assoc. reflexivity.
Qed.

Lemma dispatch_flat m H ctx r log :
  dispatch m H ctx r log
  = log ++ flat_map
             (fun e => flat_map (fun info => dispatch_info m H ctx e info [])
                         (Entry_Messaging e))
             (Receive_Entry r).
Proof.
  unfold dispatch. generalize (Receive_Entry r) as es. intros es. revert log.
  induction es as [|e es IH]; intros log; simpl.
  - now rewrite app_nil_r.
  - rewrite IH, dispatch_events_flat, <- app_assoc. reflexivity.
Qed.

Lemma calls_app ev1 ev2 : calls (ev1 ++ ev2) = calls ev1 ++ calls ev2.
Proof.
  induction ev1 as [|x ev1 IH]; simpl; [reflexivity|].
  destruct x; simpl; rewrite ?IH; reflexivity.
Qed.

Lemma classify_unknown_iff m info e :
  classify m info e = UnknownAction <-> forall a, populated a info = false.
Proof.
  unfold classify. split.
  - destruct (is_some (Info_Message info)) eqn:E1; [discriminate|].
    destruct (is_some (Info_Delivery info)) eqn:E2; [discriminate|].
    destruct (is_some (Info_Read info)) eqn:E3; [discriminate|].
    destruct (is_some (Info_PostBack info)) eqn:E4; [discriminate|].
    destruct (is_some (Info_OptIn info)) eqn:E5; [discriminate|].
    destruct (is_some (Info_ReferralMessage info)) eqn:E6; [discriminate|].
    destruct (is_some (Info_AccountLinking info)) eqn:E7; [discriminate|].
    intros _ a. destruct a; simpl; congruence.
  - intros Hp.
    pose proof (Hp TextAction) as H1. pose proof (Hp DeliveryAction) as H2.
    pose proof (Hp ReadAction) as H3. pose proof (Hp PostBackAction) as H4.
    pose proof (Hp OptInAction) as H5. pose proof (Hp ReferralAction) as H6.
    pose proof (Hp AccountLinkingAction) as H7. simpl in *.
    now rewrite H1, H2, H3, H4, H5, H6, H7.
Qed.

Lemma classify_first_populated m info e : classify m info e = first_populated info.
Proof.
  unfold classify, first_populated, populated_categories, precedence. simpl.
  destruct (is_some (Info_Message info)); [reflexivity|].
  destruct (is_some (Info_Delivery info)); [reflexivity|].
  destruct (is_some (Info_Read info)); [reflexivity|].
  destruct (is_some (Info_PostBack info)); [reflexivity|].
  destruct (is_some (Info_OptIn info)); [reflexivity|].
  destruct (is_some (Info_ReferralMessage info)); [reflexivity|].
  destruct (is_some (Info_AccountLinking info)); reflexivity.
Qed.

(** The category [classify] returns has its field populated, so that the
    pointer [dispatch] dereferences is never [nil]. *)
Lemma classify_populated m info e :
  classify m info e <> UnknownAction -> populated (classify m info e) info = true.
Proof.
  unfold classify.
  destruct (is_some (Info_Message info)) eqn:E1; [intros _; exact E1|].
  destruct (is_some (Info_Delivery info)) eqn:E2; [intros _; exact E2|].
  destruct (is_some (Info_Read info)) eqn:E3; [intros _; exact E3|].
  destruct (is_some (Info_PostBack info)) eqn:E4; [intros _; exact E4|].
  destruct (is_some (Info_OptIn info)) eqn:E5; [intros _; exact E5|].
  destruct (is_some (Info_ReferralMessage info)) eqn:E6; [intros _; exact E6|].
  destruct (is_some (Info_AccountLinking info)) eqn:E7; [intros _; exact E7|].
  congruence.
Qed.

Lemma classify_least m info e b :
  populated b info = true -> (rank (classify m info e) <= rank b)%nat.
Proof.
  unfold classify. intros Hb.
  destruct (is_some (Info_Message info)) eqn:E1; [simpl; lia|].
  destruct (is_some (Info_Delivery info)) eqn:E2;
    [destruct b; simpl in *; try lia; congruence|].
  destruct (is_some (Info_Read info)) eqn:E3;
    [destruct b; simpl in *; try lia; congruence|].
  destruct (is_some (Info_PostBack info)) eqn:E4;
    [destruct b; simpl in *; try lia; congruence|].
  destruct (is_some (Info_OptIn info)) eqn:E5;
    [destruct b; simpl in *; try lia; congruence|].
  destruct (is_some (Info_ReferralMessage info)) eqn:E6;
    [destruct b; simpl in *; try lia; congruence|].
  destruct (is_some (Info_AccountLinking info)) eqn:E7;
    [destruct b; simpl in *; try lia; congruence|].
  destruct b; simpl in *; congruence.
Qed.

(** C2. [classify] depends on the event alone and returns exactly one
    category: the first, in the order Message > Delivery > Read > PostBack >
    OptIn > ReferralMessage > AccountLinking, whose field is populated, and
    Unknown when none is. Hence an event with exactly one populated field
    gets the category of that field, and of two populated fields the
    earlier-listed one wins. *)
Theorem classify_precedence (m : Messenger) (info : MessageInfo) (e : Entry) :
  classify m info e = first_populated info
  /\ (forall m' e', classify m' info e' = classify m info e)
  /\ (forall a, populated a info = true ->
        (forall b, populated b info = true -> b = a) -> classify m info e = a)
  /\ (forall a b, populated a info = true -> populated b info = true ->
        (rank a < rank b)%nat -> classify m info e <> b)
  /\ (forall a, populated a info = true ->
        (forall b, (rank b < rank a)%nat -> populated b info = false) ->
        classify m info e = a)
  /\ ((forall a, populated a info = false) -> classify m info e = UnknownAction).
Proof.
  split; [apply classify_first_populated|].
  split; [intros m' e'; now rewrite !classify_first_populated|].
  assert (Hne : forall a, populated a info = true -> classify m info e <> UnknownAction).
  { intros a Ha Hc. apply classify_unknown_iff with (a := a) in Hc. congruence. }
  split.
  { intros a Ha Huniq. apply Huniq, classify_populated, (Hne a Ha). }
  split.
  { intros a b Ha Hb Hlt Hc. pose proof (classify_least m info e a Ha) as Hle.
    rewrite Hc in Hle. lia. }
  split.
  { intros a Ha Hbefore.
    pose proof (classify_least m info e a Ha) as Hle.
    pose proof (classify_populated m info e (Hne a Ha)) as Hp.
    destruct (Nat.eq_dec (rank (classify m info e)) (rank a)) as [Heq|Hneq].
    - destruct (classify m info e), a; simpl in Heq; congruence.
    - rewrite Hbefore in Hp by lia. discriminate. }
  intros Hnone. now apply classify_unknown_iff.
Qed.

Lemma classify_precedence_witness :
  populated_categories ambiguous_event = [DeliveryAction; PostBackAction]
  /\ classify plain_messenger ambiguous_event (mkEntry [ambiguous_event]) = DeliveryAction.
Proof.
  split; [reflexivity|].
  destruct (classify_precedence plain_messenger ambiguous_event (mkEntry [ambiguous_event]))
    as (_ & _ & _ & _ & Hfirst & _).
  apply Hfirst; [reflexivity|].
  intros b Hb. destruct b; simpl in Hb; try lia; reflexivity.
Defined.

(** [classify] does not look at the entry, nor at the client. *)
Lemma dispatch_info_entry m H ctx e e' info log :
  dispatch_info m H ctx e info log = dispatch_info m H ctx e' info log.
Proof. reflexivity. Qed.

Lemma dispatch_info_unknown m H ctx e info log :
  classify m info e = UnknownAction ->
  dispatch_info m H ctx e info log = log ++ [PrintUnknownAction info].
Proof.
  intros Hc. unfold dispatch_info. rewrite Hc.
  destruct (decide (UnknownAction = UnknownAction)); congruence.
Qed.

(** C6. [dispatch] goes through the entries, and through the events of each
    entry, in array order. An event with no populated field is classified
    Unknown; it is logged and no handler is called for it; and the events
    and entries before and after it are processed as they are without it. *)
Theorem dispatch_unknown_skipped (m : Messenger) (H : Registry) (ctx : Context)
    (r : Receive) :
  dispatch m H ctx r []
  = flat_map
      (fun e => flat_map (fun info => dispatch_info m H ctx e info [])
                  (Entry_Messaging e))
      (Receive_Entry r)
  /\ (forall e info,
        (forall a, populated a info = false) ->
        classify m info e = UnknownAction
        /\ dispatch_info m H ctx e info [] = [PrintUnknownAction info]
        /\ calls (dispatch_info m H ctx e info []) = [])
  /\ (forall es1 es2 l1 l2 info,
        Receive_Entry r = es1 ++ mkEntry (l1 ++ info :: l2) :: es2 ->
        classify m info (mkEntry (l1 ++ info :: l2)) = UnknownAction ->
        dispatch m H ctx r []
        = dispatch m H ctx (mkReceive (Receive_Object r) (es1 ++ [mkEntry l1])) []
          ++ [PrintUnknownAction info]
          ++ dispatch m H ctx (mkReceive (Receive_Object r) (mkEntry l2 :: es2)) []
        /\ calls (dispatch m H ctx r [])
           = calls (dispatch m H ctx
                      (mkReceive (Receive_Object r) (es1 ++ mkEntry (l1 ++ l2) :: es2)) [])).
Proof.
  split; [apply (dispatch_flat m H ctx r [])|].
  split.
  { intros e info Hnone.
    assert (Hc : classify m info e = UnknownAction) by now apply classify_unknown_iff.
    split; [exact Hc|].
    rewrite (dispatch_info_unknown m H ctx e info [] Hc). split; reflexivity. }
  intros es1 es2 l1 l2 info Hr Hc.
  rewrite !dispatch_flat. simpl. rewrite Hr.
  rewrite !flat_map_app. simpl. rewrite !flat_map_app. simpl.
  rewrite (dispatch_info_unknown m H ctx _ info [] Hc). simpl.
  rewrite !app_nil_r.
  split.
  - rewrite <- !app_assoc. reflexivity.
  - rewrite !calls_app. simpl. reflexivity.
Qed.

Lemma dispatch_unknown_skipped_witness :
  let r := mkReceive "page"
             [mkEntry [text_event 1 2 1000 "a"; empty_event 3 4 2000; text_event 5 6 3000 "b"];
              mkEntry [text_event 7 8 4000 "c"]] in
  map Call_arg (calls (dispatch plain_messenger one_each 0%nat r []))
  = map Call_arg
      (calls (dispatch plain_messenger one_each 0%nat
                (mkReceive "page"
                   [mkEntry [text_event 1 2 1000 "a"; text_event 5 6 3000 "b"];
                    mkEntry [text_event 7 8 4000 "c"]]) [])).
Proof.
  intros r.
  destruct (dispatch_unknown_skipped plain_messenger one_each 0%nat r) as (_ & _ & Hskip).
  destruct (Hskip [] [mkEntry [text_event 7 8 4000 "c"]] [text_event 1 2 1000 "a"]
              [text_event 5 6 3000 "b"] (empty_event 3 4 2000) eq_refl eq_refl)
    as [_ Hcalls].
  rewrite Hcalls. reflexivity.
Defined.

(** ** What a handler is given *)

Lemma in_call_handlers c hs a ctx arg resp :
  In (Invoke c) (call_handlers hs a ctx arg resp []) ->
  Call_category c = a /\ Call_ctx c = ctx /\ Call_arg c = arg /\ Call_resp c = resp
  /\ In (Call_handler c) hs.
Proof.
  rewrite call_handlers_app. simpl. rewrite in_map_iff.
  intros (f & Hf & Hin). injection Hf as <-. simpl. auto.
Qed.

(** C5, as the code has it. Every value a handler is given is the populated
    payload of the category of the event, with its JSON fields unchanged.
    For Text, PostBack, OptIn, Referral and AccountLinking it carries the
    sender and the recipient of the event and the time
    [time.Unix(timestamp/1000, 0)]; for Delivery and Read it is the payload
    as decoded, with no sender, recipient or time. *)
Theorem dispatch_payload (m : Messenger) (H : Registry) (ctx : Context) (e : Entry)
    (info : MessageInfo) (c : Call) :
  In (Invoke c) (dispatch_info m H ctx e info []) ->
  classify m info e <> UnknownAction
  /\ Call_category c = classify m info e
  /\ Payload_category (Call_arg c) = classify m info e
  /\ populated_fields (classify m info e) info = Some (Payload_Fields (Call_arg c))
  /\ Payload_enrichment (Call_arg c)
     = (if enriched_category (classify m info e)
        then Some (Info_Sender info, Info_Recipient info, event_time info)
        else None)
  /\ (forall d, Call_arg c = PDelivery d -> Info_Delivery info = Some d)
  /\ (forall d, Call_arg c = PRead d -> Info_Read info = Some d).
Proof.
  unfold dispatch_info.
  destruct (decide (classify m info e = UnknownAction)) as [Hu|Hu].
  { simpl. intros [Hc|[]]. discriminate Hc. }
  pose proof (classify_populated m info e Hu) as Hp.
  destruct (classify m info e) eqn:Hc; simpl in Hp; [congruence|..];
    match goal with
    | |- context [match ?o with Some _ => _ | None => _ end] =>
        destruct o as [v|] eqn:Hv; [|discriminate Hp]
    end;
    intros Hin; apply in_call_handlers in Hin;
    destruct Hin as (Hcat & _ & Harg & _ & _);
    rewrite Harg, Hcat; simpl; rewrite ?Hv; simpl;
    repeat split; try congruence; try discriminate.
Qed.

Lemma dispatch_payload_witness :
  exists c,
    Call_arg c
    = PMessage (mkMessage [("text", JStr "hi")] (mkSender 1) (mkRecipient 2) (Unix 1000 0))
    /\ Payload_enrichment (Call_arg c) = Some (mkSender 1, mkRecipient 2, Unix 1000 0).
Proof.
  set (info := text_event 1 2 1000000 "hi").
  set (c := mkCall "onMessage" TextAction 0%nat
              (PMessage (mkMessage [("text", JStr "hi")] (mkSender 1) (mkRecipient 2)
                           (Unix 1000 0)))
              (mkResponse (mkRecipient 1) "tok" DefaultClient)).
  exists c. split; [reflexivity|].
  assert (Hin : In (Invoke c) (dispatch_info plain_messenger one_each 0%nat (mkEntry [info]) info []))
    by (left; reflexivity).
  destruct (dispatch_payload plain_messenger one_each 0%nat (mkEntry [info]) info c Hin)
    as (_ & _ & _ & _ & He & _).
  exact He.
Defined.

(** C5, as the specification states it, would give every handler a value
    from which the sender of the event can be read. Two delivery events that
    differ in sender, recipient and timestamp give the delivery handler the
    same value. *)
Lemma delivery_not_enriched :
  dispatch_info plain_messenger one_each 0%nat (mkEntry []) (delivery_event 1 2 1000000) []
  = [Invoke (mkCall "onDelivery" DeliveryAction 0%nat
               (PDelivery (mkDelivery [("watermark", JNum "5")]))
               (mkResponse (mkRecipient 1) "tok" DefaultClient))]
  /\ Payload_enrichment (PDelivery (mkDelivery [("watermark", JNum "5")])) = None
  /\ ~ (exists (sender_of : Payload -> Sender) (recipient_of : Payload -> Recipient)
          (time_of : Payload -> Time),
          forall m H ctx e info c,
            classify m info e <> UnknownAction ->
            In (Invoke c) (dispatch_info m H ctx e info []) ->
            sender_of (Call_arg c) = Info_Sender info
            /\ recipient_of (Call_arg c) = Info_Recipient info
            /\ time_of (Call_arg c) = event_time info).
Proof.
  split; [reflexivity|]. split; [reflexivity|].
  intros (sender_of & recipient_of & time_of & Hall).
  pose (c1 := mkCall "onDelivery" DeliveryAction 0%nat
                (PDelivery (mkDelivery [("watermark", JNum "5")]))
                (mkResponse (mkRecipient 1) "tok" DefaultClient)).
  pose (c2 := mkCall "onDelivery" DeliveryAction 0%nat
                (PDelivery (mkDelivery [("watermark", JNum "5")]))
                (mkResponse (mkRecipient 3) "tok" DefaultClient)).
  destruct (Hall plain_messenger one_each 0%nat (mkEntry []) (delivery_event 1 2 1000000) c1)
    as (Hs1 & _); [discriminate | left; reflexivity |].
  destruct (Hall plain_messenger one_each 0%nat (mkEntry []) (delivery_event 3 4 2000000) c2)
    as (Hs2 & _); [discriminate | left; reflexivity |].
  simpl in Hs1, Hs2. congruence.
Qed.

(** ** The signature check *)

Lemma cut_eq_has_eq s : cut_eq s = None <-> has_eq s = false.
Proof.
  induction s as [|c s IH]; simpl; [tauto|].
  destruct (Ascii.eqb c "="); simpl; [split; discriminate|].
  destruct (cut_eq s) as [[a b]|]; [|tauto].
  split; [discriminate|]. intros Hs. apply IH in Hs. discriminate.
Qed.

Lemma cut_eq_app a b :
  has_eq a = false -> cut_eq (a ++ String "=" b)%string = Some (a, b).
Proof.
  induction a as [|c a IH]; simpl; [reflexivity|].
  destruct (Ascii.eqb c "="); simpl; [discriminate|].
  intros Ha. now rewrite (IH Ha).
Qed.

Lemma ToLower_app s t : ToLower (s ++ t)%string = (ToLower s ++ ToLower t)%string.
Proof. induction s as [|c s IH]; simpl; [reflexivity|now rewrite IH]. Qed.

(** [%x] prints lower-case digits. *)
Lemma ToLower_hex b : ToLower (hex b) = hex b.
Proof.
  induction b as [|x b IH]; [reflexivity|].
  change (hex (x :: b)) with (hex [x] ++ hex b)%string.
  rewrite ToLower_app, IH. f_equal. destruct x; reflexivity.
Qed.

Lemma request_put_back r : set_Body (snd (ReadAll r)) (fst (ReadAll r)) = r.
Proof. destruct r; reflexivity. Qed.

Lemma checkIntegrity_request m r : snd (checkIntegrity m r) = r.
Proof.
  unfold checkIntegrity.
  destruct (String.eqb (appSecret m) EmptyString); [reflexivity|].
  destruct (SplitN_eq_2 (Header_Get r sigHeader)) as [sig0 [sig1|]].
  - pose proof (request_put_back r) as Hr. destruct (ReadAll r) as [body r1].
    simpl in Hr |- *. rewrite Hr.
    destruct (String.eqb (ToLower sig0) "sha1"); reflexivity.
  - destruct (String.eqb sig0 EmptyString); reflexivity.
Qed.

(** The checks of [checkIntegrity], in their order. *)
Lemma checkIntegrity_verdict m r :
  fst (checkIntegrity m r)
  = if String.eqb (appSecret m) EmptyString then Some "missing app secret"
    else
      match SplitN_eq_2 (Header_Get r sigHeader) with
      | (sig0, None) =>
          if String.eqb sig0 EmptyString then Some "missing X-Hub-Signature header"
          else Some ("malformed X-Hub-Signature header: " ++ sig0)%string
      | (sig0, Some sig1) =>
          if String.eqb (ToLower sig0) "sha1" then
            if String.eqb
                 (hex (Crypto.hmac_sha1 (bytes_of_string (appSecret m)) (Body r)))
                 (ToLower sig1)
            then None
            else Some ("invalid signature: " ++ ToLower sig1)%string
          else Some ("unknown X-Hub-Signature header encoding, expected sha1: "
                       ++ sig0)%string
      end.
Proof.
  unfold checkIntegrity, checkSHA1.
  destruct (String.eqb (appSecret m) EmptyString); [reflexivity|].
  destruct (SplitN_eq_2 (Header_Get r sigHeader)) as [sig0 [sig1|]].
  - simpl. destruct (String.eqb (ToLower sig0) "sha1"); [|reflexivity]. simpl.
    destruct (String.eqb _ (ToLower sig1)); reflexivity.
  - destruct (String.eqb sig0 EmptyString); reflexivity.
Qed.

(** (a) No secret: the request is refused whatever its header is. *)
Lemma checkIntegrity_no_secret m r :
  appSecret m = EmptyString -> fst (checkIntegrity m r) = Some "missing app secret".
Proof. intros Hs. rewrite checkIntegrity_verdict, Hs. reflexivity. Qed.

(** (b) A header without [=] is refused before the encoding is looked at. *)
Lemma checkIntegrity_no_separator m r :
  appSecret m <> EmptyString ->
  has_eq (Header_Get r sigHeader) = false ->
  fst (checkIntegrity m r)
  = if String.eqb (Header_Get r sigHeader) EmptyString
    then Some "missing X-Hub-Signature header"
    else Some ("malformed X-Hub-Signature header: " ++ Header_Get r sigHeader)%string.
Proof.
  intros Hs Hh. rewrite checkIntegrity_verdict.
  apply String.eqb_neq in Hs. rewrite Hs.
  unfold SplitN_eq_2. apply cut_eq_has_eq in Hh. rewrite Hh. reflexivity.
Qed.

(** (c) An encoding that is not [sha1], in any case of the letters, is
    refused without a look at the hash. *)
Lemma checkIntegrity_unknown_encoding m r enc hash :
  appSecret m <> EmptyString ->
  has_eq enc = false ->
  Header_Get r sigHeader = (enc ++ String "=" hash)%string ->
  ToLower enc <> "sha1" ->
  fst (checkIntegrity m r)
  = Some ("unknown X-Hub-Signature header encoding, expected sha1: " ++ enc)%string.
Proof.
  intros Hs He Hh Hne. rewrite checkIntegrity_verdict.
  apply String.eqb_neq in Hs. rewrite Hs.
  unfold SplitN_eq_2. rewrite Hh, (cut_eq_app enc hash He).
  apply String.eqb_neq in Hne. rewrite Hne. reflexivity.
Qed.

(** (d) With the encoding [sha1] the check succeeds exactly when the hash of
    the header, in lower case, is the hexadecimal HMAC-SHA1 of the body
    under the secret. *)
Lemma checkIntegrity_sha1 m r enc hash :
  appSecret m <> EmptyString ->
  has_eq enc = false ->
  Header_Get r sigHeader = (enc ++ String "=" hash)%string ->
  ToLower enc = "sha1" ->
  (fst (checkIntegrity m r) = None
   <-> ToLower hash = hex (Crypto.hmac_sha1 (bytes_of_string (appSecret m)) (Body r)))
  /\ (fst (checkIntegrity m r) <> None ->
      fst (checkIntegrity m r) = Some ("invalid signature: " ++ ToLower hash)%string).
Proof.
  intros Hs He Hh Hsha. rewrite checkIntegrity_verdict.
  apply String.eqb_neq in Hs. rewrite Hs.
  unfold SplitN_eq_2. rewrite Hh, (cut_eq_app enc hash He), Hsha. simpl.
  destruct (String.eqb _ (ToLower hash)) eqn:E.
  - apply String.eqb_eq in E. split; [split; congruence|congruence].
  - apply String.eqb_neq in E. split; [split; [discriminate|congruence]|reflexivity].
Qed.

(** A signature computed with the secret over the body is accepted. *)
Lemma checkIntegrity_valid m r :
  appSecret m <> EmptyString ->
  Header_Get r sigHeader
  = ("sha1=" ++ hex (Crypto.hmac_sha1 (bytes_of_string (appSecret m)) (Body r)))%string ->
  fst (checkIntegrity m r) = None.
Proof.
  intros Hs Hh.
  apply (checkIntegrity_sha1 m r "sha1" _ Hs eq_refl Hh eq_refl).
  apply ToLower_hex.
Qed.

(** With such a signature in the header, a request whose body or whose
    secret has another HMAC is refused: the check fails on a changed body or
    secret unless the two HMACs collide. *)
Lemma checkIntegrity_changed m m' r r' :
  appSecret m' <> EmptyString ->
  Header_Get r' sigHeader
  = ("sha1=" ++ hex (Crypto.hmac_sha1 (bytes_of_string (appSecret m)) (Body r)))%string ->
  hex (Crypto.hmac_sha1 (bytes_of_string (appSecret m')) (Body r'))
  <> hex (Crypto.hmac_sha1 (bytes_of_string (appSecret m)) (Body r)) ->
  fst (checkIntegrity m' r') <> None.
Proof.
  intros Hs Hh Hne Hok.
  apply (checkIntegrity_sha1 m' r' "sha1" _ Hs eq_refl Hh eq_refl) in Hok.
  rewrite ToLower_hex in Hok. congruence.
Qed.

(** C9. [checkIntegrity] leaves the request as it found it: what is read
    from the body after it returns, with an error or without, is what could
    be read before, and these are the bytes the signature was checked
    against. The same holds of [Handle], which decodes a copy of the body:
    the request it leaves gives the bytes it was sent. *)
Theorem checkIntegrity_keeps_body (m : Messenger) (r : Request) :
  snd (checkIntegrity m r) = r
  /\ fst (ReadAll (snd (checkIntegrity m r))) = fst (ReadAll r)
  /\ (forall enc hash,
        appSecret m <> EmptyString ->
        SplitN_eq_2 (Header_Get r sigHeader) = (enc, Some hash) ->
        ToLower enc = "sha1" ->
        fst (checkIntegrity m r)
        = checkSHA1 m (fst (ReadAll (snd (checkIntegrity m r)))) (ToLower hash))
  /\ (forall Unmarshal H w,
        Method r <> "GET" ->
        fst (ReadAll (request_left (Handle Unmarshal m H w r))) = fst (ReadAll r)).
Proof.
  split; [apply checkIntegrity_request|].
  split; [now rewrite checkIntegrity_request|].
  split.
  { intros enc hash Hs Hsplit Hsha. rewrite checkIntegrity_request.
    unfold checkIntegrity. apply String.eqb_neq in Hs. rewrite Hs, Hsplit. simpl.
    now rewrite Hsha. }
  intros Unmarshal H w Hm. unfold Handle, request_left.
  apply String.eqb_neq in Hm. rewrite Hm.
  pose proof (request_put_back r) as Hr. destruct (ReadAll r) as [body r1] eqn:Hread.
  simpl in Hr. rewrite Hr.
  assert (Hbody : body = Body r) by (unfold ReadAll in Hread; congruence).
  destruct (Unmarshal body) as [rec|err]; [|now rewrite Hbody].
  destruct (negb (String.eqb (Receive_Object rec) "page")); [now rewrite Hbody|].
  destruct (verify m); [|now rewrite Hbody].
  pose proof (checkIntegrity_request m r) as Hc.
  destruct (checkIntegrity m r) as [[err|] r2]; simpl in Hc; subst r2; now rewrite Hbody.
Qed.

Lemma checkIntegrity_keeps_body_witness :
  let r := post (sign "secret" page_body) page_body in
  fst (checkIntegrity verifying_messenger r) = None
  /\ fst (ReadAll (snd (checkIntegrity verifying_messenger r))) = page_body.
Proof.
  intros r.
  destruct (checkIntegrity_keeps_body verifying_messenger r) as (_ & Hbody & Hsig & _).
  split.
  - rewrite (Hsig "sha1"
               (hex (Crypto.hmac_sha1 (bytes_of_string "secret") page_body))).
    + rewrite Hbody. vm_compute. reflexivity.
    + discriminate.
    + vm_compute. reflexivity.
    + reflexivity.
  - rewrite Hbody. reflexivity.
Defined.

(** ** The handler *)

Section HandleProperties.
Variable Unmarshal : list byte -> result Receive.

Lemma Handle_on_GET m H w r :
  Method r = "GET" -> Handle Unmarshal m H w r = (verifyHandler m w r, r, []).
Proof. intros Hm. unfold Handle. now rewrite Hm. Qed.

(** The pipeline of a request that is not a GET, with the body read and
    put back. *)
Lemma Handle_on_POST m H w r :
  Method r <> "GET" ->
  Handle Unmarshal m H w r
  = match Unmarshal (Body r) with
    | Err err => (http_Error w err StatusUnprocessableEntity, r, [PrintDecodeError err])
    | Ok rec =>
        if negb (String.eqb (Receive_Object rec) "page") then
          (http_Error w ("Object is not page, undefined behaviour. Got: "
                           ++ Receive_Object rec)%string
             StatusUnprocessableEntity, r, [])
        else if verify m then
          match fst (checkIntegrity m r) with
          | Some err => (http_Error w err StatusForbidden, r, [PrintVerifyError err])
          | None => (Fprintln w ack, r, dispatch m H (Ctx r) rec [])
          end
        else (Fprintln w ack, r, dispatch m H (Ctx r) rec [])
    end.
Proof.
  intros Hm. unfold Handle. apply String.eqb_neq in Hm. rewrite Hm.
  pose proof (request_put_back r) as Hr. unfold ReadAll in *. simpl in *.
  rewrite Hr.
  destruct (Unmarshal (Body r)) as [rec|err]; [|reflexivity].
  destruct (negb (String.eqb (Receive_Object rec) "page")); [reflexivity|].
  destruct (verify m); [|reflexivity].
  pose proof (checkIntegrity_request m r) as Hc.
  destruct (checkIntegrity m r) as [[err|] r2]; simpl in *; subst r2; reflexivity.
Qed.

Lemma POST_not_GET r : Method r = "POST" -> Method r <> "GET".
Proof. intros ->. discriminate. Qed.

End HandleProperties.

(** C3. A POST whose body decodes to an envelope whose object is not "page"
    is answered with status 422, whatever the verify mode and the
    signature; nothing is dispatched and no handler is called. *)
Theorem Handle_not_page (Unmarshal : list byte -> result Receive) (m : Messenger)
    (H : Registry) (r : Request) (rec : Receive) :
  Method r = "POST" ->
  Unmarshal (Body r) = Ok rec ->
  Receive_Object rec <> "page" ->
  let x := Handle Unmarshal m H newResponseWriter r in
  status (response x) = Some StatusUnprocessableEntity
  /\ written (response x)
     = ("Object is not page, undefined behaviour. Got: " ++ Receive_Object rec
          ++ newline)%string
  /\ events x = []
  /\ calls (events x) = [].
Proof.
  intros Hm Hdec Hobj x. subst x.
  rewrite (Handle_on_POST Unmarshal m H _ r (POST_not_GET r Hm)), Hdec.
  apply String.eqb_neq in Hobj. rewrite Hobj. simpl.
  repeat split.
Qed.

Lemma Handle_not_page_witness :
  let x := Handle Decode.Unmarshal verifying_messenger one_each newResponseWriter
             (post (sign "secret" user_body) user_body) in
  status (response x) = Some 422 /\ calls (events x) = [].
Proof.
  intros x.
  destruct (Handle_not_page Decode.Unmarshal verifying_messenger one_each
              (post (sign "secret" user_body) user_body)
              (mkReceive "user" []))
    as (Hs & _ & _ & Hc); [reflexivity | vm_compute; reflexivity | discriminate |].
  split; [exact Hs | exact Hc].
Defined.

(** C1, as the code has it. The body is decoded, and its object compared
    with "page", before the signature is checked. A POST in the verify mode
    whose signature fails is never dispatched; it is answered with 403 and
    the error of the check when its body decodes to an envelope of object
    "page", and with 422 when the body does not decode or the object is
    another. *)
Theorem Handle_bad_signature (Unmarshal : list byte -> result Receive) (m : Messenger)
    (H : Registry) (r : Request) (err : string) :
  Method r = "POST" ->
  verify m = true ->
  fst (checkIntegrity m r) = Some err ->
  let x := Handle Unmarshal m H newResponseWriter r in
  calls (events x) = []
  /\ match Unmarshal (Body r) with
     | Ok rec =>
         if String.eqb (Receive_Object rec) "page"
         then status (response x) = Some StatusForbidden
              /\ written (response x) = (err ++ newline)%string
         else status (response x) = Some StatusUnprocessableEntity
     | Err _ => status (response x) = Some StatusUnprocessableEntity
     end.
Proof.
  intros Hm Hv Herr x. subst x.
  rewrite (Handle_on_POST Unmarshal m H _ r (POST_not_GET r Hm)).
  destruct (Unmarshal (Body r)) as [rec|e]; [|split; reflexivity].
  destruct (String.eqb (Receive_Object rec) "page"); simpl; [|split; reflexivity].
  rewrite Hv, Herr. simpl. repeat split.
Qed.

Lemma Handle_bad_signature_witness :
  let x := Handle Decode.Unmarshal verifying_messenger one_each newResponseWriter
             (post (sign "other secret" page_body) page_body) in
  calls (events x) = []
  /\ status (response x) = Some 403.
Proof.
  intros x.
  destruct (Handle_bad_signature Decode.Unmarshal verifying_messenger one_each
              (post (sign "other secret" page_body) page_body)
              ("invalid signature: "
                 ++ hex (Crypto.hmac_sha1 (bytes_of_string "other secret") page_body))%string)
    as (Hc & Hs).
  - reflexivity.
  - reflexivity.
  - vm_compute. reflexivity.
  - split; [exact Hc|].
    change (Decode.Unmarshal
              (Body (post (sign "other secret" page_body) page_body)))
      with (Decode.Unmarshal page_body) in Hs.
    assert (Hd : exists rec, Decode.Unmarshal page_body = Ok rec
                             /\ String.eqb (Receive_Object rec) "page" = true)
      by (eexists; split; vm_compute; reflexivity).
    destruct Hd as (rec & Hd & Hp). rewrite Hd, Hp in Hs. apply Hs.
Defined.

(** C1, as the specification states it, fails: in the verify mode, a POST
    without signature whose body is not JSON, or whose object is "user", is
    answered with 422 and not with 403. *)
Lemma bad_signature_answered_422 :
  verify verifying_messenger = true
  /\ fst (checkIntegrity verifying_messenger (post ∅ broken_body))
     = Some "missing X-Hub-Signature header"
  /\ status (response (Handle Decode.Unmarshal verifying_messenger one_each
                         newResponseWriter (post ∅ broken_body)))
     = Some 422
  /\ fst (checkIntegrity verifying_messenger (post ∅ user_body))
     = Some "missing X-Hub-Signature header"
  /\ status (response (Handle Decode.Unmarshal verifying_messenger one_each
                         newResponseWriter (post ∅ user_body)))
     = Some 422
  /\ ~ (forall m H r,
          Method r = "POST" -> verify m = true -> fst (checkIntegrity m r) <> None ->
          status (response (Handle Decode.Unmarshal m H newResponseWriter r))
          = Some StatusForbidden).
Proof.
  assert (H422 : status (response (Handle Decode.Unmarshal verifying_messenger one_each
                                     newResponseWriter (post ∅ broken_body)))
                 = Some 422) by (vm_compute; reflexivity).
  split; [reflexivity|].
  split; [vm_compute; reflexivity|].
  split; [exact H422|].
  split; [vm_compute; reflexivity|].
  split; [vm_compute; reflexivity|].
  intros Hall.
  specialize (Hall verifying_messenger one_each (post ∅ broken_body) eq_refl eq_refl).
  rewrite H422 in Hall.
  assert (Hne : fst (checkIntegrity verifying_messenger (post ∅ broken_body)) <> None)
    by (vm_compute; discriminate).
  specialize (Hall Hne). discriminate Hall.
Qed.

(** C7, as the code has it. A GET never reaches the decoder or the
    dispatcher: there are no events and the request is left as it is. When
    the [hub.verify_token] parameter is the configured verify token, the
    status is 200 and the body is the [hub.challenge] parameter followed by
    a line feed; otherwise the status is 403 and the body is the fixed text
    "Incorrect verify token" followed by a line feed. *)
Theorem verification_endpoint (Unmarshal : list byte -> result Receive) (m : Messenger)
    (H : Registry) (r : Request) :
  Method r = "GET" ->
  let x := Handle Unmarshal m H newResponseWriter r in
  events x = []
  /\ request_left x = r
  /\ (FormValue r "hub.verify_token" = verifyToken m ->
      status (response x) = Some StatusOK
      /\ written (response x) = (FormValue r "hub.challenge" ++ newline)%string)
  /\ (FormValue r "hub.verify_token" <> verifyToken m ->
      status (response x) = Some StatusForbidden
      /\ written (response x) = ("Incorrect verify token" ++ newline)%string).
Proof.
  intros Hm x. subst x. rewrite (Handle_on_GET Unmarshal m H _ r Hm).
  unfold verifyHandler, response, request_left, events. simpl.
  split; [reflexivity|]. split; [reflexivity|]. split.
  - intros Heq. apply String.eqb_eq in Heq. rewrite Heq. split; reflexivity.
  - intros Hne. apply String.eqb_neq in Hne. rewrite Hne. split; reflexivity.
Qed.

Lemma verification_endpoint_witness :
  let ok := Handle Decode.Unmarshal plain_messenger one_each newResponseWriter
              (handshake "abc" "42") in
  let ko := Handle Decode.Unmarshal plain_messenger one_each newResponseWriter
              (handshake "wrong" "42") in
  (status (response ok) = Some 200 /\ written (response ok) = ("42" ++ newline)%string)
  /\ status (response ko) = Some 403
  /\ events ok = [] /\ events ko = [].
Proof.
  intros ok ko.
  destruct (verification_endpoint Decode.Unmarshal plain_messenger one_each (handshake "abc" "42")
              eq_refl) as (He1 & _ & Hok & _).
  destruct (verification_endpoint Decode.Unmarshal plain_messenger one_each (handshake "wrong" "42")
              eq_refl) as (He2 & _ & _ & Hko).
  split; [apply Hok; vm_compute; reflexivity|].
  split; [apply Hko; vm_compute; discriminate|].
  split; assumption.
Defined.

(** C7, as the specification states it, fails: with the verify token [abc],
    the request [?hub.verify_token=abc&hub.challenge=42] is answered with
    the body [42] and a line feed, which is not the challenge verbatim. *)
Lemma challenge_followed_by_line_feed :
  let x := Handle Decode.Unmarshal plain_messenger one_each newResponseWriter
             (handshake "abc" "42") in
  status (response x) = Some 200
  /\ written (response x) = String "4" (String "2" (String "010" EmptyString))
  /\ written (response x) <> "42".
Proof.
  vm_compute. split; [reflexivity|]. split; [reflexivity|]. discriminate.
Qed.

Lemma first_value_absent (f : gmap string (list string)) key :
  f !! key = None \/ (exists rest, f !! key = Some (EmptyString :: rest)) ->
  first_value f key = EmptyString.
Proof. unfold first_value. intros [->|[rest ->]]; reflexivity. Qed.

(** C10. When the client is made from options whose verify token is the
    empty string, every GET whose [hub.verify_token] parameter is absent or
    empty passes the handshake: the status is 200, not 403, and the body is
    the [hub.challenge] parameter, empty when it is absent, followed by the
    line feed of [Fprintln]. *)
Theorem empty_verify_token_accepts (Unmarshal : list byte -> result Receive) (mo : Options)
    (H : Registry) (r : Request) :
  Method r = "GET" ->
  Options_VerifyToken mo = EmptyString ->
  Form r !! "hub.verify_token" = None
  \/ (exists rest, Form r !! "hub.verify_token" = Some (EmptyString :: rest)) ->
  let x := Handle Unmarshal (New mo) H newResponseWriter r in
  status (response x) = Some StatusOK
  /\ status (response x) <> Some StatusForbidden
  /\ written (response x) = (FormValue r "hub.challenge" ++ newline)%string
  /\ events x = [].
Proof.
  intros Hm Htok Habs x. subst x. rewrite (Handle_on_GET Unmarshal (New mo) H _ r Hm).
  unfold verifyHandler, response, events, FormValue. simpl.
  rewrite (first_value_absent _ _ Habs), Htok. simpl.
  split; [reflexivity|]. split; [discriminate|]. split; reflexivity.
Qed.

Lemma empty_verify_token_accepts_witness :
  let mo := mkOptions false EmptyString EmptyString "tok" None in
  let absent := Handle Decode.Unmarshal (New mo) one_each newResponseWriter
                  (get {["hub.challenge" := ["42"]]}) in
  let empty := Handle Decode.Unmarshal (New mo) one_each newResponseWriter
                 (get {["hub.verify_token" := [EmptyString]]}) in
  (status (response absent) = Some 200
   /\ written (response absent) = ("42" ++ newline)%string)
  /\ status (response empty) = Some 200
  /\ written (response empty) = newline.
Proof.
  intros mo absent empty.
  destruct (empty_verify_token_accepts Decode.Unmarshal mo one_each
              (get {["hub.challenge" := ["42"]]}) eq_refl eq_refl)
    as (Hs1 & _ & Hw1 & _); [left; vm_compute; reflexivity|].
  destruct (empty_verify_token_accepts Decode.Unmarshal mo one_each
              (get {["hub.verify_token" := [EmptyString]]}) eq_refl eq_refl)
    as (Hs2 & _ & Hw2 & _); [right; exists []; vm_compute; reflexivity|].
  split; [split; [exact Hs1 | exact Hw1]|].
  split; [exact Hs2 | exact Hw2].
Defined.

Lemma Unmarshal_page_body :
  Decode.Unmarshal page_body
  = Ok (mkReceive "page" [mkEntry [text_event 1 2 1000000 "hi"]]).
Proof. vm_compute. reflexivity. Qed.

Lemma calls_invocations (l : list Call) : calls (map Invoke l) = l.
Proof. induction l as [|c l IH]; simpl; [reflexivity|now rewrite IH]. Qed.

(** C8, as the code has it. Out of the verify mode, the POST of the example
    body is answered with status 200 and the fixed acknowledgement, whatever
    the registry holds. Each registered message handler, and no other
    handler, is called once, in registration order, with the message of
    fields [text = hi], sender 1, recipient 2 and time
    [time.Unix(1000, 0)]: the timestamp 1000000 divided by 1000, the
    [int64] value of [time.Microsecond]. With one message handler there is
    exactly one call. *)
Theorem Handle_page_message (m : Messenger) (H : Registry) (r : Request) :
  verify m = false ->
  Method r = "POST" ->
  Body r = page_body ->
  let x := Handle Decode.Unmarshal m H newResponseWriter r in
  let call f :=
    mkCall f TextAction (Ctx r) (PMessage hi_message)
      (mkResponse (mkRecipient 1) (token m) (client m)) in
  status (response x) = Some StatusOK
  /\ written (response x) = (ack ++ newline)%string
  /\ events x = map (fun f => Invoke (call f)) (messageHandlers H)
  /\ calls (events x) = map call (messageHandlers H)
  /\ (forall f, messageHandlers H = [f] -> calls (events x) = [call f])
  /\ (forall H', response (Handle Decode.Unmarshal m H' newResponseWriter r) = response x).
Proof.
  intros Hv Hm Hb x call.
  assert (Hx : forall H0,
             Handle Decode.Unmarshal m H0 newResponseWriter r
             = (Fprintln newResponseWriter ack, r,
                map (fun f => Invoke (call f)) (messageHandlers H0))).
  { intros H0.
    rewrite (Handle_on_POST Decode.Unmarshal m H0 _ r (POST_not_GET r Hm)).
    rewrite Hb, Unmarshal_page_body. simpl. rewrite Hv.
    rewrite dispatch_flat. simpl. rewrite app_nil_r.
    unfold dispatch_info. simpl. rewrite call_handlers_app, app_nil_r. reflexivity. }
  subst x. rewrite Hx. unfold response, events. simpl.
  split; [reflexivity|]. split; [reflexivity|]. split; [reflexivity|].
  assert (Hc : calls (map (fun f => Invoke (call f)) (messageHandlers H))
               = map call (messageHandlers H)).
  { rewrite <- (calls_invocations (map call (messageHandlers H))).
    now rewrite map_map. }
  split; [exact Hc|].
  split.
  - intros f Hf. rewrite Hc, Hf. reflexivity.
  - intros H'. now rewrite Hx.
Qed.

Lemma Handle_page_message_witness :
  let x := Handle Decode.Unmarshal plain_messenger one_each newResponseWriter
             (post ∅ page_body) in
  status (response x) = Some 200
  /\ written (response x) = (ack ++ newline)%string
  /\ calls (events x)
     = [mkCall "onMessage" TextAction 0%nat (PMessage hi_message)
          (mkResponse (mkRecipient 1) "tok" DefaultClient)].
Proof.
  intros x.
  destruct (Handle_page_message plain_messenger one_each (post ∅ page_body)
              eq_refl eq_refl eq_refl) as (Hs & Hw & _ & _ & Hone & _).
  split; [exact Hs|]. split; [exact Hw|].
  apply (Hone "onMessage"). reflexivity.
Defined.

(** C8, as the specification states it, fails in the derived time: for the
    timestamp 1000000 the message handler is given the time
    [time.Unix(1000, 0)], 1000 seconds after the epoch, not 1 second. *)
Lemma message_time_is_1000_seconds :
  let x := Handle Decode.Unmarshal plain_messenger one_each newResponseWriter
             (post ∅ page_body) in
  map (fun c => Payload_enrichment (Call_arg c)) (calls (events x))
  = [Some (mkSender 1, mkRecipient 2, Unix 1000 0)]
  /\ map (fun c => Payload_enrichment (Call_arg c)) (calls (events x))
     <> [Some (mkSender 1, mkRecipient 2, Unix 1 0)]
  /\ event_time (text_event 1 2 1000000 "hi") = Unix 1000 0.
Proof.
  vm_compute. split; [reflexivity|]. split; [discriminate|reflexivity].
Qed.

(** ** Test vectors *)

Example sha1_abc :
  hex (Crypto.sha1 (bytes_of_string "abc")) = "a9993e364706816aba3e25717850c26c9cd0d89d".
Proof. vm_compute. reflexivity. Qed.

Example sha1_empty :
  hex (Crypto.sha1 []) = "da39a3ee5e6b4b0d3255bfef95601890afd80709".
Proof. vm_compute. reflexivity. Qed.

Example sha1_two_blocks :
  hex (Crypto.sha1 (bytes_of_string
         "abcdbcdecdefdefgefghfghighijhijkijkljklmklmnlmnomnopnopq"))
  = "84983e441c3bd26ebaae4aa1f95129e5e54670f1".
Proof. vm_compute. reflexivity. Qed.

Example hmac_sha1_fox :
  hex (Crypto.hmac_sha1 (bytes_of_string "key")
         (bytes_of_string "The quick brown fox jumps over the lazy dog"))
  = "de7c9b85b8b78aa6bc8a7a36f70a90701c9db4d9".
Proof. vm_compute. reflexivity. Qed.

(** A key longer than a block (RFC 2202, test case 6). *)
Example hmac_sha1_long_key :
  hex (Crypto.hmac_sha1 (repeat xaa 80)
         (bytes_of_string "Test Using Larger Than Block-Size Key - Hash Key First"))
  = "aa4ae5e15272d00e95705637ce8a3b55ed402112".
Proof. vm_compute. reflexivity. Qed.

(** A signed request passes the whole pipeline in the verify mode; with the
    first byte of the body, or of the secret, changed in one bit, the same
    signature is refused with 403 and nothing is dispatched. *)
Example signed_request_accepted :
  let x := Handle Decode.Unmarshal verifying_messenger one_each newResponseWriter
             (post (sign "secret" page_body) page_body) in
  status (response x) = Some 200
  /\ map Call_arg (calls (events x)) = [PMessage hi_message].
Proof. vm_compute. split; reflexivity. Qed.

Example changed_secret_refused :
  flip_first (bytes_of_string "secret") = bytes_of_string "recret"
  /\ fst (checkIntegrity (New (mkOptions true "recret" "abc" "tok" None))
            (post (sign "secret" page_body) page_body))
     = Some ("invalid signature: "
               ++ hex (Crypto.hmac_sha1 (bytes_of_string "secret") page_body))%string.
Proof. vm_compute. split; reflexivity. Qed.

Example changed_body_refused :
  fst (checkIntegrity verifying_messenger
         (post (sign "secret" page_body) (flip_first page_body)))
  = Some ("invalid signature: "
            ++ hex (Crypto.hmac_sha1 (bytes_of_string "secret") page_body))%string.
Proof. vm_compute. reflexivity. Qed.

(** An upper-case encoding and an upper-case hash are accepted; another
    encoding is refused, and so is a header without separator. *)
Example upper_case_signature_accepted :
  fst (checkIntegrity verifying_messenger
         (post {[ sigHeader := ["SHA1=25AF6174A0FCECC4D346680A72B7CE644B9A88E8"] ]} []))
  = None
  /\ fst (checkIntegrity verifying_messenger (post {[ sigHeader := ["md5=00"] ]} []))
     = Some "unknown X-Hub-Signature header encoding, expected sha1: md5"
  /\ fst (checkIntegrity verifying_messenger (post {[ sigHeader := ["sha1"] ]} []))
     = Some "malformed X-Hub-Signature header: sha1"
  /\ fst (checkIntegrity plain_messenger
            (post {[ sigHeader := ["SHA1=25AF6174A0FCECC4D346680A72B7CE644B9A88E8"] ]} []))
     = Some "missing app secret".
Proof. vm_compute. repeat split. Qed.

(** * Further properties of the pipeline *)

(** ** Dispatch *)

(** The calls made for an event of a known category: one for each handler
    of the category, with one argument and one response handle. *)
Lemma dispatch_info_known m H ctx e info :
  classify m info e <> UnknownAction ->
  exists arg,
    Payload_category arg = classify m info e
    /\ dispatch_info m H ctx e info []
       = map (fun f =>
                Invoke (mkCall f (classify m info e) ctx arg
                          (mkResponse (mkRecipient (Sender_ID (Info_Sender info)))
                             (token m) (client m))))
           (handlers_of H (classify m info e)).
Proof.
  intros Hu. pose proof (classify_populated m info e Hu) as Hp.
  unfold dispatch_info.
  destruct (decide (classify m info e = UnknownAction)) as [Hu'|_]; [contradiction|].
  destruct (classify m info e) eqn:Hc; simpl in Hp; [congruence|..];
    match goal with
    | |- context [match ?o with Some _ => _ | None => _ end] =>
        destruct o as [v|] eqn:Hv; [|discriminate Hp]
    end;
    rewrite call_handlers_app; simpl; eexists; (split; [|reflexivity]); reflexivity.
Qed.

Lemma calls_map_Invoke {A} (f : A -> Call) (l : list A) :
  calls (map (fun x => Invoke (f x)) l) = map f l.
Proof. induction l as [|x l IH]; simpl; [reflexivity|now rewrite IH]. Qed.

(** X1. For every event, the handlers called are exactly the handlers
    registered for the category of the event, each once and in registration
    order; handlers of the other categories are not called, and no handler
    is called for an event of unknown category. All of them get the same
    argument and the same response handle. *)
Theorem handlers_in_registration_order (m : Messenger) (H : Registry) (ctx : Context)
    (e : Entry) (info : MessageInfo) :
  map Call_handler (calls (dispatch_info m H ctx e info []))
  = handlers_of H (classify m info e)
  /\ (forall c1 c2,
        In c1 (calls (dispatch_info m H ctx e info [])) ->
        In c2 (calls (dispatch_info m H ctx e info [])) ->
        Call_arg c1 = Call_arg c2 /\ Call_resp c1 = Call_resp c2).
Proof.
  destruct (decide (classify m info e = UnknownAction)) as [Hu|Hu].
  - rewrite (dispatch_info_unknown m H ctx e info [] Hu), Hu. simpl.
    split; [reflexivity|]. intros c1 c2 [].
  - destruct (dispatch_info_known m H ctx e info Hu) as (arg & _ & Heq).
    rewrite Heq, calls_map_Invoke. split.
    + rewrite map_map. simpl. apply map_id.
    + intros c1 c2 H1 H2. apply in_map_iff in H1, H2.
      destruct H1 as (f1 & <- & _). destruct H2 as (f2 & <- & _). split; reflexivity.
Qed.

Lemma in_calls c ev : In c (calls ev) <-> In (Invoke c) ev.
Proof.
  induction ev as [|x ev IH]; simpl; [tauto|].
  destruct x; simpl; rewrite IH; split; intros Hin;
    try (right; exact Hin); try (destruct Hin as [Hx|Hin]; [discriminate Hx|exact Hin]).
  - destruct Hin as [->|Hin]; [now left|now right].
  - destruct Hin as [Hx|Hin]; [injection Hx as ->; now left|now right].
Qed.

(** X2. Every call [dispatch] makes stems from an event of the envelope: it
    goes to a handler registered for the category of that event, with the
    context [dispatch] was given and a response handle addressed to the
    sender of the event that carries the token and the client of the
    messenger. *)
Theorem calls_come_from_events (m : Messenger) (H : Registry) (ctx : Context)
    (r : Receive) (c : Call) :
  In c (calls (dispatch m H ctx r [])) ->
  exists e info,
    In e (Receive_Entry r)
    /\ In info (Entry_Messaging e)
    /\ classify m info e <> UnknownAction
    /\ Call_category c = classify m info e
    /\ Payload_category (Call_arg c) = classify m info e
    /\ In (Call_handler c) (handlers_of H (classify m info e))
    /\ Call_ctx c = ctx
    /\ Call_resp c
       = mkResponse (mkRecipient (Sender_ID (Info_Sender info))) (token m) (client m).
Proof.
  rewrite in_calls, dispatch_flat. simpl. rewrite in_flat_map.
  intros (e & He & Hin). rewrite in_flat_map in Hin. destruct Hin as (info & Hi & Hin).
  exists e, info. split; [exact He|]. split; [exact Hi|].
  destruct (decide (classify m info e = UnknownAction)) as [Hu|Hu].
  - rewrite (dispatch_info_unknown m H ctx e info [] Hu) in Hin.
    destruct Hin as [Hx|[]]. discriminate Hx.
  - split; [exact Hu|].
    destruct (dispatch_info_known m H ctx e info Hu) as (arg & Hcat & Heq).
    rewrite Heq, in_map_iff in Hin. destruct Hin as (f & Hf & Hfin).
    injection Hf as <-. simpl. repeat split; assumption.
Qed.

Lemma calls_come_from_events_witness :
  exists info,
    In info [text_event 1 2 1000 "a"; empty_event 3 4 2000]
    /\ Sender_ID (Info_Sender info) = 1
    /\ classify plain_messenger info (mkEntry []) = TextAction.
Proof.
  set (r := mkReceive "page" [mkEntry [text_event 1 2 1000 "a"; empty_event 3 4 2000]]).
  set (c := mkCall "onMessage" TextAction 5%nat
              (PMessage (mkMessage [("text", JStr "a")] (mkSender 1) (mkRecipient 2)
                           (Unix 1 0)))
              (mkResponse (mkRecipient 1) "tok" DefaultClient)).
  assert (Hin : In c (calls (dispatch plain_messenger one_each 5%nat r [])))
    by (left; reflexivity).
  destruct (calls_come_from_events plain_messenger one_each 5%nat r c Hin)
    as (e & info & He & Hi & _ & Hcat & _ & _ & _ & Hresp).
  destruct He as [<-|[]]. exists info. split; [exact Hi|].
  split.
  - simpl in Hresp. injection Hresp as Hs. symmetry. exact Hs.
  - simpl in Hcat. symmetry. exact Hcat.
Defined.

Lemma no_payload_classify m info e :
  no_payload info = true <-> classify m info e = UnknownAction.
Proof.
  unfold no_payload, classify, precedence. simpl.
  destruct (is_some (Info_Message info)), (is_some (Info_Delivery info)),
    (is_some (Info_Read info)), (is_some (Info_PostBack info)),
    (is_some (Info_OptIn info)), (is_some (Info_ReferralMessage info)),
    (is_some (Info_AccountLinking info)); simpl; split; congruence.
Qed.

Lemma printed_unknown_app ev1 ev2 :
  printed_unknown (ev1 ++ ev2) = printed_unknown ev1 ++ printed_unknown ev2.
Proof.
  induction ev1 as [|x ev1 IH]; simpl; [reflexivity|].
  destruct x; simpl; rewrite ?IH; reflexivity.
Qed.

Lemma printed_errors_app ev1 ev2 :
  printed_errors (ev1 ++ ev2) = printed_errors ev1 ++ printed_errors ev2.
Proof.
  induction ev1 as [|x ev1 IH]; simpl; [reflexivity|].
  destruct x; simpl; rewrite ?IH; reflexivity.
Qed.

Lemma printed_Invoke {A} (f : A -> Call) (l : list A) :
  printed_unknown (map (fun x => Invoke (f x)) l) = []
  /\ printed_errors (map (fun x => Invoke (f x)) l) = [].
Proof. induction l as [|x l [IH1 IH2]]; simpl; split; auto. Qed.

Lemma dispatch_info_printed m H ctx e info :
  printed_unknown (dispatch_info m H ctx e info [])
  = (if no_payload info then [info] else [])
  /\ printed_errors (dispatch_info m H ctx e info []) = [].
Proof.
  destruct (decide (classify m info e = UnknownAction)) as [Hu|Hu].
  - rewrite (dispatch_info_unknown m H ctx e info [] Hu). simpl.
    apply (no_payload_classify m info e) in Hu. rewrite Hu. split; reflexivity.
  - destruct (dispatch_info_known m H ctx e info Hu) as (arg & _ & Heq).
    rewrite Heq. destruct (printed_Invoke
      (fun f => mkCall f (classify m info e) ctx arg
                  (mkResponse (mkRecipient (Sender_ID (Info_Sender info)))
                     (token m) (client m)))
      (handlers_of H (classify m info e))) as [-> ->].
    destruct (no_payload info) eqn:Hn; [|split; reflexivity].
    apply (no_payload_classify m info e) in Hn. contradiction.
Qed.

(** X3. The lines [dispatch] prints are one for each event without payload,
    in array order, and nothing else; they do not depend on the handlers
    registered, so an event without payload is reported even when no
    handler is registered at all. *)
Theorem unknown_events_printed (m : Messenger) (H : Registry) (ctx : Context)
    (r : Receive) :
  printed_unknown (dispatch m H ctx r []) = List.filter no_payload (all_events r)
  /\ printed_errors (dispatch m H ctx r []) = []
  /\ (length (List.filter no_payload (all_events r))
      + length (calls (dispatch m H ctx r []))
      = length (dispatch m H ctx r []))%nat.
Proof.
  rewrite dispatch_flat. simpl. unfold all_events.
  induction (Receive_Entry r) as [|e es (IH1 & IH2 & IH3)]; simpl; [repeat split|].
  rewrite printed_unknown_app, printed_errors_app, calls_app, !length_app.
  rewrite List.filter_app, length_app, IH1, IH2.
  assert (He : printed_unknown
                 (flat_map (fun info => dispatch_info m H ctx e info []) (Entry_Messaging e))
               = List.filter no_payload (Entry_Messaging e)
               /\ printed_errors
                    (flat_map (fun info => dispatch_info m H ctx e info [])
                       (Entry_Messaging e)) = []
               /\ (length (List.filter no_payload (Entry_Messaging e))
                   + length (calls (flat_map (fun info => dispatch_info m H ctx e info [])
                                      (Entry_Messaging e)))
                   = length (flat_map (fun info => dispatch_info m H ctx e info [])
                               (Entry_Messaging e)))%nat).
  { induction (Entry_Messaging e) as [|info l (IHl1 & IHl2 & IHl3)]; simpl;
      [repeat split|].
    rewrite printed_unknown_app, printed_errors_app, calls_app, !length_app.
    destruct (dispatch_info_printed m H ctx e info) as [Hp1 Hp2].
    rewrite Hp1, Hp2, IHl1, IHl2.
    destruct (decide (classify m info e = UnknownAction)) as [Hu|Hu].
    - pose proof Hu as Hn. apply (no_payload_classify m info e) in Hn. rewrite Hn.
      rewrite (dispatch_info_unknown m H ctx e info [] Hu). simpl.
      repeat split. lia.
    - destruct (no_payload info) eqn:Hn;
        [apply (no_payload_classify m info e) in Hn; contradiction|].
      destruct (dispatch_info_known m H ctx e info Hu) as (arg & _ & Heq).
      rewrite Heq, calls_map_Invoke, !length_map. simpl. repeat split. lia. }
  destruct He as (He1 & He2 & He3). rewrite He1, He2. repeat split. lia.
Qed.

(** X4. The time a handler is given is a whole number of seconds, the
    timestamp divided by 1000 and truncated toward zero: a timestamp that
    is not negative lies in the second it is given, within 1000 units, and
    a negative one is rounded up toward the epoch. *)
Theorem event_time_whole_seconds (info : MessageInfo) :
  exists s,
    event_time info = Unix s 0
    /\ (0 <= Info_Timestamp info ->
        1000 * s <= Info_Timestamp info < 1000 * s + 1000)
    /\ (Info_Timestamp info <= 0 ->
        1000 * s - 1000 < Info_Timestamp info <= 1000 * s).
Proof.
  exists (Z.quot (Info_Timestamp info) 1000). split; [reflexivity|].
  pose proof (Z.quot_rem' (Info_Timestamp info) 1000) as Hq. split; intros Ht.
  - pose proof (Z.rem_bound_pos (Info_Timestamp info) 1000 Ht). lia.
  - pose proof (Z.rem_bound_pos_neg (Info_Timestamp info) 1000). lia.
Qed.

(** ** The handler, for every method and mode *)



(** X6. A request that is not a GET is answered with status 200 exactly
    when its body decodes to an envelope of object "page" and, in the
    verify mode, the signature check succeeds; the body of the answer is
    then the fixed acknowledgement and the events are those of [dispatch]
    on the decoded envelope, with the context of the request. *)
Theorem Handle_accepts_iff (Unmarshal : list byte -> result Receive) (m : Messenger)
    (H : Registry) (r : Request) :
  Method r <> "GET" ->
  let x := Handle Unmarshal m H newResponseWriter r in
  (status (response x) = Some StatusOK
   <-> exists rec,
         Unmarshal (Body r) = Ok rec
         /\ Receive_Object rec = "page"
         /\ (verify m = true -> fst (checkIntegrity m r) = None))
  /\ (forall rec,
        Unmarshal (Body r) = Ok rec ->
        status (response x) = Some StatusOK ->
        written (response x) = (ack ++ newline)%string
        /\ events x = dispatch m H (Ctx r) rec []).
Proof.
  intros Hm x. subst x. rewrite (Handle_on_POST Unmarshal m H _ r Hm).
  destruct (Unmarshal (Body r)) as [rec|err].
  - destruct (String.eqb (Receive_Object rec) "page") eqn:Hobj; simpl.
    + apply String.eqb_eq in Hobj.
      destruct (verify m) eqn:Hv.
      * destruct (fst (checkIntegrity m r)) as [e|] eqn:Hc; simpl.
        -- split.
           ++ split; [discriminate|].
              intros (rec' & Hrec & _ & Hok). specialize (Hok eq_refl). discriminate Hok.
           ++ intros rec' _ Hs. discriminate Hs.
        -- split.
           ++ split; [|reflexivity]. intros _. exists rec. repeat split; assumption.
           ++ intros rec' Hrec _. injection Hrec as <-. split; reflexivity.
      * split.
        -- split; [|reflexivity]. intros _. exists rec.
           split; [reflexivity|]. split; [exact Hobj|discriminate].
        -- intros rec' Hrec _. injection Hrec as <-. split; reflexivity.
    + apply String.eqb_neq in Hobj. split.
      * split; [discriminate|].
        intros (rec' & Hrec & Hpage & _). injection Hrec as <-. contradiction.
      * intros rec' _ Hs. discriminate Hs.
  - split.
    + split; [discriminate|]. intros (rec' & Hrec & _). discriminate Hrec.
    + intros rec' Hrec. discriminate Hrec.
Qed.

Lemma Handle_accepts_iff_witness :
  let x := Handle Decode.Unmarshal verifying_messenger one_each newResponseWriter
             (post (sign "secret" page_body) page_body) in
  status (response x) = Some 200.
Proof.
  intros x.
  destruct (Handle_accepts_iff Decode.Unmarshal verifying_messenger one_each
              (post (sign "secret" page_body) page_body)) as [[_ Hok] _];
    [discriminate|].
  apply Hok. exists (mkReceive "page" [mkEntry [text_event 1 2 1000000 "hi"]]).
  split; [vm_compute; reflexivity|]. split; [reflexivity|].
  intros _. vm_compute. reflexivity.
Defined.

(** X7. A handler is called only for a request that is answered with the
    acknowledgement: the request is not a GET, its body decodes to an
    envelope of object "page" and, in the verify mode, its signature has
    passed the check. *)
Theorem handlers_only_after_verification (Unmarshal : list byte -> result Receive)
    (m : Messenger) (H : Registry) (r : Request) (c : Call) :
  let x := Handle Unmarshal m H newResponseWriter r in
  In c (calls (events x)) ->
  Method r <> "GET"
  /\ status (response x) = Some StatusOK
  /\ (verify m = true -> fst (checkIntegrity m r) = None)
  /\ exists rec,
       Unmarshal (Body r) = Ok rec
       /\ Receive_Object rec = "page"
       /\ In c (calls (dispatch m H (Ctx r) rec [])).
Proof.
  intros x. subst x.
  destruct (String.eqb (Method r) "GET") eqn:Hm.
  { apply String.eqb_eq in Hm. rewrite (Handle_on_GET Unmarshal m H _ r Hm).
    intros []. }
  apply String.eqb_neq in Hm. rewrite (Handle_on_POST Unmarshal m H _ r Hm).
  destruct (Unmarshal (Body r)) as [rec|err]; [|intros []].
  destruct (String.eqb (Receive_Object rec) "page") eqn:Hobj; simpl; [|intros []].
  apply String.eqb_eq in Hobj.
  destruct (verify m) eqn:Hv.
  - destruct (fst (checkIntegrity m r)) as [e|] eqn:Hc; simpl; [intros []|].
    intros Hin. split; [exact Hm|]. split; [reflexivity|]. split; [reflexivity|].
    exists rec. repeat split; assumption.
  - intros Hin. split; [exact Hm|]. split; [reflexivity|]. split; [discriminate|].
    exists rec. repeat split; assumption.
Qed.

Lemma handlers_only_after_verification_witness :
  fst (checkIntegrity verifying_messenger (post (sign "secret" page_body) page_body)) = None.
Proof.
  set (r := post (sign "secret" page_body) page_body).
  set (c := mkCall "onMessage" TextAction 0%nat (PMessage hi_message)
              (mkResponse (mkRecipient 1) "tok" DefaultClient)).
  assert (Hin : In c (calls (events (Handle Decode.Unmarshal verifying_messenger one_each
                                       newResponseWriter r))))
    by (vm_compute; left; reflexivity).
  destruct (handlers_only_after_verification Decode.Unmarshal verifying_messenger
              one_each r c Hin) as (_ & _ & Hv & _).
  apply Hv. reflexivity.
Defined.

(** X8. Every request is answered: the status is 200, 403 or 422 and the
    body ends with a line feed. A GET is never answered with 422, and out
    of the verify mode no other request is answered with 403. *)
Theorem Handle_always_answers (Unmarshal : list byte -> result Receive) (m : Messenger)
    (H : Registry) (r : Request) :
  let x := Handle Unmarshal m H newResponseWriter r in
  (status (response x) = Some StatusOK
   \/ status (response x) = Some StatusForbidden
   \/ status (response x) = Some StatusUnprocessableEntity)
  /\ (exists s, written (response x) = (s ++ newline)%string)
  /\ (Method r = "GET" -> status (response x) <> Some StatusUnprocessableEntity)
  /\ (Method r <> "GET" -> verify m = false ->
      status (response x) <> Some StatusForbidden).
Proof.
  intros x. subst x.
  destruct (String.eqb (Method r) "GET") eqn:Hm.
  - apply String.eqb_eq in Hm. rewrite (Handle_on_GET Unmarshal m H _ r Hm).
    unfold verifyHandler, response. simpl.
    destruct (String.eqb (FormValue r "hub.verify_token") (verifyToken m)); simpl.
    + split; [now left|]. split; [now eexists|]. split; [discriminate|contradiction].
    + split; [right; now left|]. split; [now eexists|]. split; [discriminate|contradiction].
  - apply String.eqb_neq in Hm. rewrite (Handle_on_POST Unmarshal m H _ r Hm).
    destruct (Unmarshal (Body r)) as [rec|err]; simpl.
    + destruct (String.eqb (Receive_Object rec) "page"); simpl.
      * destruct (verify m).
        -- destruct (fst (checkIntegrity m r)) as [e|]; simpl.
           ++ split; [right; now left|]. split; [now eexists|].
              split; [contradiction|discriminate].
           ++ split; [now left|]. split; [now eexists|].
              split; [contradiction|discriminate].
        -- split; [now left|]. split; [now eexists|]. split; [contradiction|discriminate].
      * split; [right; now right|].
        split; [exists ("Object is not page, undefined behaviour. Got: "
                          ++ Receive_Object rec)%string;
                simpl; reflexivity|].
        split; [contradiction|discriminate].
    + split; [right; now right|]. split; [now eexists|].
      split; [contradiction|discriminate].
Qed.

(** X9. The method is only compared with "GET", in that spelling: a request
    under any other method (PUT, DELETE, or "get" in lower case) goes
    through the pipeline of a POST, with the same answer and the same
    events. *)
Theorem Handle_any_method (Unmarshal : list byte -> result Receive) (m : Messenger)
    (H : Registry) (w : ResponseWriter) (r : Request) :
  Method r <> "GET" ->
  response (Handle Unmarshal m H w r)
  = response (Handle Unmarshal m H w (set_Method r "POST"))
  /\ events (Handle Unmarshal m H w r)
     = events (Handle Unmarshal m H w (set_Method r "POST")).
Proof.
  intros Hm.
  assert (Hp : Method (set_Method r "POST") <> "GET") by discriminate.
  rewrite (Handle_on_POST Unmarshal m H w r Hm).
  rewrite (Handle_on_POST Unmarshal m H w _ Hp).
  assert (Hc : fst (checkIntegrity m (set_Method r "POST")) = fst (checkIntegrity m r))
    by (rewrite !checkIntegrity_verdict; reflexivity).
  rewrite Hc. simpl.
  destruct (Unmarshal (Body r)) as [rec|err]; [|split; reflexivity].
  destruct (negb (String.eqb (Receive_Object rec) "page")); [split; reflexivity|].
  destruct (verify m); [|split; reflexivity].
  destruct (fst (checkIntegrity m r)); split; reflexivity.
Qed.

Lemma Handle_any_method_witness :
  calls (events (Handle Decode.Unmarshal plain_messenger one_each newResponseWriter
                   (set_Method (post ∅ page_body) "get")))
  = [mkCall "onMessage" TextAction 0%nat (PMessage hi_message)
       (mkResponse (mkRecipient 1) "tok" DefaultClient)].
Proof.
  destruct (Handle_any_method Decode.Unmarshal plain_messenger one_each newResponseWriter
              (set_Method (post ∅ page_body) "get")) as [_ He]; [discriminate|].
  rewrite He. vm_compute. reflexivity.
Defined.

(** X10. Out of the verify mode the header of the request and the app
    secret play no part: two requests that are not GETs and have the same
    body and context get the same answer and cause the same events from two
    clients with the same token and HTTP client. *)
Theorem Handle_unverified (Unmarshal : list byte -> result Receive) (m m' : Messenger)
    (H : Registry) (w : ResponseWriter) (r r' : Request) :
  verify m = false -> verify m' = false ->
  token m = token m' -> client m = client m' ->
  Method r <> "GET" -> Method r' <> "GET" ->
  Body r = Body r' -> Ctx r = Ctx r' ->
  response (Handle Unmarshal m H w r) = response (Handle Unmarshal m' H w r')
  /\ events (Handle Unmarshal m H w r) = events (Handle Unmarshal m' H w r').
Proof.
  intros Hv Hv' Ht Hcl Hm Hm' Hb Hctx.
  rewrite (Handle_on_POST Unmarshal m H w r Hm).
  rewrite (Handle_on_POST Unmarshal m' H w r' Hm').
  rewrite Hv, Hv', <- Hb, <- Hctx.
  destruct (Unmarshal (Body r)) as [rec|err]; [|split; reflexivity].
  destruct (negb (String.eqb (Receive_Object rec) "page")); [split; reflexivity|].
  split; [reflexivity|]. simpl.
  unfold dispatch, dispatch_info, classify. rewrite Ht, Hcl. reflexivity.
Qed.

Lemma Handle_unverified_witness :
  events (Handle Decode.Unmarshal plain_messenger one_each newResponseWriter
            (post (sign "wrong" page_body) page_body))
  = events (Handle Decode.Unmarshal plain_messenger one_each newResponseWriter
              (post ∅ page_body)).
Proof.
  apply (Handle_unverified Decode.Unmarshal plain_messenger plain_messenger one_each
           newResponseWriter (post (sign "wrong" page_body) page_body) (post ∅ page_body));
    try reflexivity; discriminate.
Defined.

(** X11. [New] accepts options that ask for the verify mode without an app
    secret, and the client then refuses every request that is not a GET and
    carries an envelope of object "page": the answer is 403 with the text
    "missing app secret", whatever the signature header holds, and no
    handler is called. *)
Theorem missing_secret_refuses_all (Unmarshal : list byte -> result Receive)
    (mo : Options) (H : Registry) (r : Request) (rec : Receive) :
  Options_Verify mo = true ->
  Options_AppSecret mo = EmptyString ->
  Method r <> "GET" ->
  Unmarshal (Body r) = Ok rec ->
  Receive_Object rec = "page" ->
  let x := Handle Unmarshal (New mo) H newResponseWriter r in
  status (response x) = Some StatusForbidden
  /\ written (response x) = ("missing app secret" ++ newline)%string
  /\ events x = [PrintVerifyError "missing app secret"]
  /\ calls (events x) = [].
Proof.
  intros Hv Hs Hm Hdec Hobj x. subst x.
  rewrite (Handle_on_POST Unmarshal (New mo) H _ r Hm), Hdec, Hobj. simpl.
  rewrite Hv, (checkIntegrity_no_secret (New mo) r Hs). repeat split.
Qed.

Lemma missing_secret_refuses_all_witness :
  let mo := mkOptions true EmptyString "abc" "tok" None in
  let x := Handle Decode.Unmarshal (New mo) one_each newResponseWriter
             (post (sign EmptyString page_body) page_body) in
  status (response x) = Some 403 /\ calls (events x) = [].
Proof.
  intros mo x.
  destruct (missing_secret_refuses_all Decode.Unmarshal mo one_each
              (post (sign EmptyString page_body) page_body)
              (mkReceive "page" [mkEntry [text_event 1 2 1000000 "hi"]]))
    as (Hs & _ & _ & Hc);
    [reflexivity | reflexivity | discriminate | vm_compute; reflexivity | reflexivity |].
  split; [exact Hs | exact Hc].
Defined.

(** ** The signature check, in full *)

Lemma cut_eq_some s a b :
  cut_eq s = Some (a, b) -> s = (a ++ String "=" b)%string /\ has_eq a = false.
Proof.
  revert a. induction s as [|c s IH]; simpl; intros a; [discriminate|].
  destruct (Ascii.eqb c "=") eqn:Hc.
  - intros Heq. injection Heq as <- <-. apply Ascii.eqb_eq in Hc. subst c. now split.
  - destruct (cut_eq s) as [[a' b']|]; [|discriminate].
    intros Heq. injection Heq as <- <-.
    destruct (IH a' eq_refl) as [-> Ha]. simpl. rewrite Hc. now split.
Qed.

Lemma eqb_lower_eq c : Ascii.eqb (lower_ascii c) "=" = Ascii.eqb c "=".
Proof. destruct c as [[] [] [] [] [] [] [] []]; vm_compute; reflexivity. Qed.

Lemma cut_eq_ToLower s :
  cut_eq (ToLower s)
  = match cut_eq s with
    | Some (a, b) => Some (ToLower a, ToLower b)
    | None => None
    end.
Proof.
  induction s as [|c s IH]; simpl; [reflexivity|].
  rewrite eqb_lower_eq. destruct (Ascii.eqb c "="); [reflexivity|].
  rewrite IH. destruct (cut_eq s) as [[a b]|]; reflexivity.
Qed.

(** The check succeeds exactly when there is a secret and the header, in
    lower case, splits at its first [=] into [sha1] and the HMAC in
    hexadecimal. *)
Lemma checkIntegrity_accepts_lower m r :
  fst (checkIntegrity m r) = None
  <-> appSecret m <> EmptyString
      /\ cut_eq (ToLower (Header_Get r sigHeader))
         = Some ("sha1", hex (Crypto.hmac_sha1 (bytes_of_string (appSecret m)) (Body r))).
Proof.
  rewrite checkIntegrity_verdict, cut_eq_ToLower. unfold SplitN_eq_2.
  destruct (String.eqb (appSecret m) EmptyString) eqn:Hs.
  { apply String.eqb_eq in Hs. split; [discriminate|]. intros [Hne _]. contradiction. }
  apply String.eqb_neq in Hs.
  destruct (cut_eq (Header_Get r sigHeader)) as [[a b]|].
  - destruct (String.eqb (ToLower a) "sha1") eqn:Ha.
    + apply String.eqb_eq in Ha.
      destruct (String.eqb _ (ToLower b)) eqn:Hb.
      * apply String.eqb_eq in Hb. split; [|reflexivity].
        intros _. split; [exact Hs|]. now rewrite Ha, Hb.
      * apply String.eqb_neq in Hb. split; [discriminate|].
        intros [_ Heq]. injection Heq as _ Hb'. congruence.
    + apply String.eqb_neq in Ha. split; [discriminate|].
      intros [_ Heq]. injection Heq as Ha' _. contradiction.
  - destruct (String.eqb (Header_Get r sigHeader) EmptyString);
      (split; [discriminate|]); intros [_ Heq]; discriminate Heq.
Qed.

(** X12. [checkIntegrity] returns no error exactly when the app secret is
    not empty and the header [X-Hub-Signature] is an encoding, an [=] and a
    hash, where the encoding has no [=] and is [sha1] in any case of its
    letters, and the hash in lower case is the hexadecimal HMAC-SHA1 of the
    body under the secret. *)
Theorem checkIntegrity_accepts_iff (m : Messenger) (r : Request) :
  fst (checkIntegrity m r) = None
  <-> appSecret m <> EmptyString
      /\ exists enc hash,
           Header_Get r sigHeader = (enc ++ String "=" hash)%string
           /\ has_eq enc = false
           /\ ToLower enc = "sha1"
           /\ ToLower hash
              = hex (Crypto.hmac_sha1 (bytes_of_string (appSecret m)) (Body r)).
Proof.
  split.
  - intros Hok. apply checkIntegrity_accepts_lower in Hok. destruct Hok as [Hs Hcut].
    split; [exact Hs|]. rewrite cut_eq_ToLower in Hcut.
    destruct (cut_eq (Header_Get r sigHeader)) as [[a b]|] eqn:Hh; [|discriminate].
    injection Hcut as Ha Hb. apply cut_eq_some in Hh. destruct Hh as [Hh Hna].
    exists a, b. repeat split; assumption.
  - intros (Hs & enc & hash & Hh & Hne & Henc & Hhash).
    now apply (checkIntegrity_sha1 m r enc hash Hs Hne Hh Henc).
Qed.

Lemma length_ToLower s : String.length (ToLower s) = String.length s.
Proof. induction s as [|c s IH]; simpl; [reflexivity|now rewrite IH]. Qed.

Lemma length_hex b : String.length (hex b) = (2 * length b)%nat.
Proof. induction b as [|x b IH]; simpl; [reflexivity|rewrite IH; lia]. Qed.

Lemma length_sha1 msg : length (Crypto.sha1 msg) = 20%nat.
Proof.
  unfold Crypto.sha1.
  destruct (Crypto.blocks _ Crypto.init _) as [a b c d e]. reflexivity.
Qed.

Lemma length_hmac_sha1 key msg : length (Crypto.hmac_sha1 key msg) = 20%nat.
Proof. unfold Crypto.hmac_sha1. apply length_sha1. Qed.

Lemma length_append s t :
  String.length (s ++ t)%string = (String.length s + String.length t)%nat.
Proof. induction s as [|c s IH]; simpl; [reflexivity|now rewrite IH]. Qed.

(** X13. A signature is only accepted whole: the header of an accepted
    request has 45 characters, the four of the encoding, the [=] and the 40
    hexadecimal digits of the HMAC. A header with a hash that is shortened,
    or followed by anything, is refused. *)
Theorem accepted_signature_length (m : Messenger) (r : Request) :
  fst (checkIntegrity m r) = None ->
  String.length (Header_Get r sigHeader) = 45%nat
  /\ exists enc hash,
       Header_Get r sigHeader = (enc ++ String "=" hash)%string
       /\ String.length enc = 4%nat
       /\ String.length hash = 40%nat.
Proof.
  intros Hok. apply checkIntegrity_accepts_lower in Hok. destruct Hok as [_ Hcut].
  rewrite cut_eq_ToLower in Hcut.
  destruct (cut_eq (Header_Get r sigHeader)) as [[a b]|] eqn:Hh; [|discriminate].
  injection Hcut as Ha Hb. apply cut_eq_some in Hh. destruct Hh as [Hh _].
  assert (Hla : String.length a = 4%nat) by (rewrite <- length_ToLower, Ha; reflexivity).
  assert (Hlb : String.length b = 40%nat)
    by (rewrite <- length_ToLower, Hb, length_hex, length_hmac_sha1; reflexivity).
  split.
  - rewrite Hh, length_append. simpl. lia.
  - exists a, b. repeat split; assumption.
Qed.

Lemma accepted_signature_length_witness :
  String.length (Header_Get (post (sign "secret" page_body) page_body) sigHeader) = 45%nat.
Proof.
  apply (accepted_signature_length verifying_messenger
           (post (sign "secret" page_body) page_body)).
  vm_compute. reflexivity.
Defined.

(** X14. The verdict does not depend on the case of the letters of the
    header: two requests with the same body whose signature headers are
    equal in lower case are both accepted or both refused. *)
Theorem checkIntegrity_case_insensitive (m : Messenger) (r r' : Request) :
  Body r = Body r' ->
  ToLower (Header_Get r sigHeader) = ToLower (Header_Get r' sigHeader) ->
  (fst (checkIntegrity m r) = None <-> fst (checkIntegrity m r') = None).
Proof.
  intros Hb Hh. rewrite !checkIntegrity_accepts_lower, Hb, Hh. reflexivity.
Qed.

Lemma checkIntegrity_case_insensitive_witness :
  fst (checkIntegrity verifying_messenger
         (post {[ sigHeader := ["SHA1=25AF6174A0FCECC4D346680A72B7CE644B9A88E8"] ]} []))
  = None.
Proof.
  apply (checkIntegrity_case_insensitive verifying_messenger
           (post (sign "secret" []) [])
           (post {[ sigHeader := ["SHA1=25AF6174A0FCECC4D346680A72B7CE644B9A88E8"] ]} []));
    [reflexivity | vm_compute; reflexivity | vm_compute; reflexivity].
Defined.

(** ** Setting up the mux *)

Section MuxProperties.
Variable ServeMux : Type.
Variable NewServeMux : ServeMux.
Variable HandleFunc : ServeMux -> string -> Messenger -> option ServeMux.

Local Abbreviation SetupHandler := (Setup.SetupHandler ServeMux NewServeMux HandleFunc).
Local Abbreviation Handler := (Setup.Handler ServeMux NewServeMux HandleFunc).

(** What a successful [SetupHandler] leaves. *)
Lemma SetupHandler_some (h : gmap loc ServeMux) m mo h' m' mo' :
  SetupHandler h m mo = Some (h', m', mo') ->
  exists l mux mux',
    l = match MuxOptions_Mux mo with Some l0 => l0 | None => fresh (dom h) end
    /\ mux = match MuxOptions_Mux mo with
             | Some _ => default NewServeMux (h !! l)
             | None => NewServeMux
             end
    /\ (forall l0, MuxOptions_Mux mo = Some l0 -> h !! l0 = Some mux)
    /\ mo' = mkMuxOptions (Some l)
               (if String.eqb (MuxOptions_WebhookURL mo) EmptyString then "/"
                else MuxOptions_WebhookURL mo)
    /\ m' = mkServer (Server_messenger m) (Some l)
    /\ HandleFunc mux (MuxOptions_WebhookURL mo') (Server_messenger m) = Some mux'
    /\ h' = <[l := mux']> h.
Proof.
  unfold Setup.SetupHandler. destruct mo as [[l0|] url]; simpl.
  - destruct (String.eqb url EmptyString); simpl;
      destruct (h !! l0) as [mux|] eqn:Hl; try discriminate;
      match goal with
      | |- context [HandleFunc mux ?u ?x] =>
          destruct (HandleFunc mux u x) as [mux'|] eqn:Hf; [|discriminate]
      end;
      intros Heq; injection Heq as <- <- <-;
      exists l0, mux, mux'; rewrite Hl; simpl;
      (repeat split; try assumption; try reflexivity);
      intros l1 Hl1; injection Hl1 as <-; exact Hl.
  - destruct (String.eqb url EmptyString); simpl; rewrite lookup_insert_eq;
      match goal with
      | |- context [HandleFunc NewServeMux ?u ?x] =>
          destruct (HandleFunc NewServeMux u x) as [mux'|] eqn:Hf; [|discriminate]
      end;
      intros Heq; injection Heq as <- <- <-;
      exists (fresh (dom h)), NewServeMux, mux';
      (repeat split; try assumption; try discriminate);
      now rewrite insert_insert_eq.
Qed.

(** X15. A successful [SetupHandler] writes what it settles on back into
    the options it was given: the path, which is "/" when it was left
    blank, and the mux, which is the one given or a new one that no client
    had. The client keeps that mux, the handler of the client is registered
    in it under that path, and every other mux is left as it was. *)
Theorem SetupHandler_writes_back (h : gmap loc ServeMux) (m : Server) (mo : MuxOptions)
    (h' : gmap loc ServeMux) (m' : Server) (mo' : MuxOptions) :
  SetupHandler h m mo = Some (h', m', mo') ->
  MuxOptions_WebhookURL mo' <> EmptyString
  /\ (MuxOptions_WebhookURL mo = EmptyString -> MuxOptions_WebhookURL mo' = "/")
  /\ (MuxOptions_WebhookURL mo <> EmptyString ->
      MuxOptions_WebhookURL mo' = MuxOptions_WebhookURL mo)
  /\ Server_messenger m' = Server_messenger m
  /\ exists l,
       MuxOptions_Mux mo' = Some l
       /\ Server_mux m' = Some l
       /\ (forall l0, MuxOptions_Mux mo = Some l0 -> l = l0)
       /\ (MuxOptions_Mux mo = None -> h !! l = None)
       /\ h' !! l
          = HandleFunc (default NewServeMux (h !! l)) (MuxOptions_WebhookURL mo')
              (Server_messenger m)
       /\ (forall l', l' <> l -> h' !! l' = h !! l').
Proof.
  intros Hs. apply SetupHandler_some in Hs.
  destruct Hs as (l & mux & mux' & Hl & Hmux & Hgiven & -> & -> & Hf & ->). simpl in *.
  split.
  { destruct (String.eqb (MuxOptions_WebhookURL mo) EmptyString) eqn:Hu; [discriminate|].
    now apply String.eqb_neq in Hu. }
  split; [intros ->; reflexivity|].
  split; [intros Hu; apply String.eqb_neq in Hu; now rewrite Hu|].
  split; [reflexivity|].
  exists l. split; [reflexivity|]. split; [reflexivity|].
  assert (Hfresh : MuxOptions_Mux mo = None -> h !! l = None).
  { intros Hn. rewrite Hn in Hl. subst l. apply not_elem_of_dom, is_fresh. }
  split; [intros l0 Hl0; rewrite Hl0 in Hl; exact Hl|].
  split; [exact Hfresh|].
  split.
  - rewrite lookup_insert_eq, <- Hf. f_equal.
    destruct (MuxOptions_Mux mo) as [l0|] eqn:Hmo.
    + exact Hmux.
    + rewrite (Hfresh eq_refl). exact Hmux.
  - intros l' Hne. now rewrite lookup_insert_ne.
Qed.

(** X16. [Handler] sets the client up once: on a client without mux it
    makes a new mux, in which the handler of the client is registered under
    "/" and nothing else, and leaves the other muxes alone; on a client
    that has a mux it registers nothing and gives that mux. So a second
    call gives the mux of the first and changes nothing. *)
Theorem Handler_registers_once (h : gmap loc ServeMux) (m : Server)
    (h' : gmap loc ServeMux) (m' : Server) (l : loc) :
  Handler h m = Some (h', m', l) ->
  Server_mux m' = Some l
  /\ Server_messenger m' = Server_messenger m
  /\ Handler h' m' = Some (h', m', l)
  /\ (Server_mux m = None ->
      h !! l = None
      /\ h' !! l = HandleFunc NewServeMux "/" (Server_messenger m)
      /\ forall l', l' <> l -> h' !! l' = h !! l')
  /\ (Server_mux m <> None -> h' = h /\ m' = m).
Proof.
  unfold Setup.Handler at 1. destruct (Server_mux m) as [l0|] eqn:Hm.
  - intros Heq. injection Heq as <- <- <-.
    split; [exact Hm|]. split; [reflexivity|].
    split; [unfold Setup.Handler; now rewrite Hm|].
    split; [discriminate|]. intros _. split; reflexivity.
  - destruct (SetupHandler h m (mkMuxOptions None EmptyString))
      as [[[h1 m1] mo1]|] eqn:Hs; [|discriminate].
    destruct (Server_mux m1) as [l1|] eqn:Hm1; [|discriminate].
    intros Heq. injection Heq as <- <- <-.
    apply SetupHandler_some in Hs.
    destruct Hs as (l & mux & mux' & Hl & Hmux & _ & -> & -> & Hf & ->). simpl in *.
    injection Hm1 as <-. subst mux.
    split; [reflexivity|]. split; [reflexivity|].
    split; [unfold Setup.Handler; reflexivity|].
    split; [|congruence]. intros _.
    split; [subst l; apply not_elem_of_dom, is_fresh|].
    split; [now rewrite lookup_insert_eq, Hf|].
    intros l' Hne. now rewrite lookup_insert_ne.
Qed.

(** X17. A mux is shared: when a second client is set up with the mux the
    first set-up left in its options, both clients hold the same mux, and
    the registration of the second is added to the mux that has the
    registration of the first. *)
Theorem SetupHandler_shares_mux (h : gmap loc ServeMux) (m1 m2 : Server)
    (mo : MuxOptions) (url2 : string)
    (h1 : gmap loc ServeMux) (m1' : Server) (mo1 : MuxOptions)
    (h2 : gmap loc ServeMux) (m2' : Server) (mo2 : MuxOptions) :
  SetupHandler h m1 mo = Some (h1, m1', mo1) ->
  SetupHandler h1 m2 (mkMuxOptions (MuxOptions_Mux mo1) url2) = Some (h2, m2', mo2) ->
  exists l mux1,
    Server_mux m1' = Some l
    /\ Server_mux m2' = Some l
    /\ h1 !! l = Some mux1
    /\ h2 !! l = HandleFunc mux1 (MuxOptions_WebhookURL mo2) (Server_messenger m2)
    /\ forall l', l' <> l -> h2 !! l' = h1 !! l'.
Proof.
  intros Hs1 Hs2. apply SetupHandler_some in Hs1, Hs2.
  destruct Hs1 as (l & mux & mux1 & _ & _ & _ & -> & -> & _ & ->).
  destruct Hs2 as (l' & mux' & mux2 & Hl' & Hmux' & Hgiven & -> & -> & Hf & ->).
  simpl in *. subst l'.
  exists l, mux1. split; [reflexivity|]. split; [reflexivity|].
  split; [apply lookup_insert_eq|].
  rewrite lookup_insert_eq in Hmux'. simpl in Hmux'. subst mux'.
  split; [now rewrite lookup_insert_eq, Hf|].
  intros l0 Hne. now rewrite lookup_insert_ne.
Qed.

End MuxProperties.

Lemma SetupHandler_writes_back_witness :
  let m := newServer (mkOptions false EmptyString "abc" "tok" None) in
  exists h' m' mo',
    Setup.SetupHandler route_list [] route_HandleFunc ∅ m (mkMuxOptions None EmptyString)
    = Some (h', m', mo')
    /\ MuxOptions_WebhookURL mo' = "/"
    /\ MuxOptions_Mux mo' = Server_mux m'.
Proof.
  intros m.
  assert (Hs : Setup.SetupHandler route_list [] route_HandleFunc ∅ m
                 (mkMuxOptions None EmptyString)
               = Some (<[0%nat := [("/", plain_messenger)]]> ∅,
                       mkServer plain_messenger (Some 0%nat),
                       mkMuxOptions (Some 0%nat) "/"))
    by (vm_compute; reflexivity).
  eexists _, _, _. split; [exact Hs|].
  destruct (SetupHandler_writes_back route_list [] route_HandleFunc _ _ _ _ _ _ Hs)
    as (_ & Hblank & _ & _ & l & Hmo & Hm & _).
  split; [apply Hblank; reflexivity|]. now rewrite Hmo, Hm.
Defined.

Lemma Handler_registers_once_witness :
  let m := newServer (mkOptions false EmptyString "abc" "tok" None) in
  exists h' m' l,
    Setup.Handler route_list [] route_HandleFunc ∅ m = Some (h', m', l)
    /\ Setup.Handler route_list [] route_HandleFunc h' m' = Some (h', m', l)
    /\ h' !! l = Some [("/", plain_messenger)].
Proof.
  intros m.
  assert (Hs : Setup.Handler route_list [] route_HandleFunc ∅ m
               = Some (<[0%nat := [("/", plain_messenger)]]> ∅,
                       mkServer plain_messenger (Some 0%nat), 0%nat))
    by (vm_compute; reflexivity).
  eexists _, _, _. split; [exact Hs|].
  destruct (Handler_registers_once route_list [] route_HandleFunc _ _ _ _ _ Hs)
    as (_ & _ & Hagain & Hnew & _).
  split; [exact Hagain|].
  destruct (Hnew eq_refl) as (_ & Hroute & _).
  etransitivity; [exact Hroute | reflexivity].
Defined.

Lemma SetupHandler_shares_mux_witness :
  let h1 := <[0%nat := [("/a", plain_messenger)]]> (∅ : gmap loc route_list) in
  let h2 := <[0%nat := [("/a", plain_messenger); ("/b", verifying_messenger)]]>
              (∅ : gmap loc route_list) in
  Setup.SetupHandler route_list [] route_HandleFunc ∅ (mkServer plain_messenger None)
    (mkMuxOptions None "/a")
  = Some (h1, mkServer plain_messenger (Some 0%nat), mkMuxOptions (Some 0%nat) "/a")
  /\ Setup.SetupHandler route_list [] route_HandleFunc h1
       (mkServer verifying_messenger None) (mkMuxOptions (Some 0%nat) "/b")
     = Some (h2, mkServer verifying_messenger (Some 0%nat), mkMuxOptions (Some 0%nat) "/b")
  /\ h2 !! 0%nat = Some [("/a", plain_messenger); ("/b", verifying_messenger)].
Proof.
  intros h1 h2.
  assert (Hs1 : Setup.SetupHandler route_list [] route_HandleFunc ∅
                  (mkServer plain_messenger None) (mkMuxOptions None "/a")
                = Some (h1, mkServer plain_messenger (Some 0%nat),
                        mkMuxOptions (Some 0%nat) "/a"))
    by (vm_compute; reflexivity).
  assert (Hs2 : Setup.SetupHandler route_list [] route_HandleFunc h1
                  (mkServer verifying_messenger None) (mkMuxOptions (Some 0%nat) "/b")
                = Some (h2, mkServer verifying_messenger (Some 0%nat),
                        mkMuxOptions (Some 0%nat) "/b"))
    by (vm_compute; reflexivity).
  split; [exact Hs1|]. split; [exact Hs2|].
  destruct (SetupHandler_shares_mux route_list [] route_HandleFunc _ _ _ _ "/b"
              _ _ _ _ _ _ Hs1 Hs2) as (l & mux1 & Hl & _ & Hmux1 & Hroutes & _).
  injection Hl as <-.
  assert (Hm : Some mux1 = Some [("/a", plain_messenger)])
    by (rewrite <- Hmux1; reflexivity).
  injection Hm as ->. etransitivity; [exact Hroutes | reflexivity].
Defined.

(** X18. With a mux that refuses a pattern registered before, as those of
    net/http do, two clients cannot listen on one path of a shared mux:
    after a first set-up, setting a second client up with the same mux and
    the same path (or a blank path, when the first is "/") panics. *)
Theorem shared_path_panics (h : gmap loc route_list) (m1 m2 : Server) (mo : MuxOptions)
    (url2 : string)
    (h1 : gmap loc route_list) (m1' : Server) (mo1 : MuxOptions) :
  Setup.SetupHandler route_list [] route_HandleFunc h m1 mo = Some (h1, m1', mo1) ->
  (if String.eqb url2 EmptyString then "/" else url2) = MuxOptions_WebhookURL mo1 ->
  Setup.SetupHandler route_list [] route_HandleFunc h1 m2
    (mkMuxOptions (MuxOptions_Mux mo1) url2)
  = None.
Proof.
  intros Hs1 Hurl. apply SetupHandler_some in Hs1.
  destruct Hs1 as (l & mux & mux1 & _ & _ & _ & -> & -> & Hf & ->). simpl in *.
  unfold route_HandleFunc in Hf.
  destruct (String.eqb _ EmptyString) eqn:Hu in Hf; [discriminate|].
  destruct (existsb _ mux) in Hf; [discriminate|]. injection Hf as <-.
  unfold Setup.SetupHandler. simpl.
  assert (Hdup : forall u,
             u = (if String.eqb (MuxOptions_WebhookURL mo) EmptyString then "/"
                  else MuxOptions_WebhookURL mo) ->
             route_HandleFunc
               (mux ++ [(if String.eqb (MuxOptions_WebhookURL mo) EmptyString then "/"
                         else MuxOptions_WebhookURL mo, Server_messenger m1)])
               u (Server_messenger m2) = None).
  { intros u ->. unfold route_HandleFunc. rewrite Hu, existsb_app. simpl.
    rewrite String.eqb_refl, orb_true_r. reflexivity. }
  destruct (String.eqb url2 EmptyString); simpl; rewrite lookup_insert_eq;
    rewrite (Hdup _ Hurl); reflexivity.
Qed.

Lemma shared_path_panics_witness :
  Setup.SetupHandler route_list [] route_HandleFunc
    (<[0%nat := [("/", plain_messenger)]]> ∅)
    (mkServer verifying_messenger None) (mkMuxOptions (Some 0%nat) EmptyString)
  = None.
Proof.
  apply (shared_path_panics ∅ (mkServer plain_messenger None)
           (mkServer verifying_messenger None) (mkMuxOptions None EmptyString) EmptyString
           (<[0%nat := [("/", plain_messenger)]]> ∅)
           (mkServer plain_messenger (Some 0%nat)) (mkMuxOptions (Some 0%nat) "/"));
    [vm_compute; reflexivity | reflexivity].
Defined.

Lemma event_time_whole_seconds_witness :
  event_time (text_event 1 2 1999 "late") = Unix 1 0
  /\ event_time (text_event 1 2 (-1999) "early") = Unix (-1) 0.
Proof.
  destruct (event_time_whole_seconds (text_event 1 2 1999 "late")) as (s & Hs & Hpos & _).
  destruct (event_time_whole_seconds (text_event 1 2 (-1999) "early"))
    as (s' & Hs' & _ & Hneg).
  simpl in Hpos, Hneg.
  assert (s = 1) by lia. assert (s' = -1) by lia. subst s s'.
  split; [exact Hs | exact Hs'].
Defined.

Lemma checkIntegrity_accepts_iff_witness :
  fst (checkIntegrity verifying_messenger (post (sign "secret" page_body) page_body)) = None.
Proof.
  apply (checkIntegrity_accepts_iff verifying_messenger
           (post (sign "secret" page_body) page_body)).
  split; [discriminate|].
  exists "sha1", (hex (Crypto.hmac_sha1 (bytes_of_string "secret") page_body)).
  split; [vm_compute; reflexivity|]. split; [reflexivity|]. split; [reflexivity|].
  vm_compute. reflexivity.
Defined.
